(** * The story generator of gen_story.py, embedded in Rocq

    The repository is one Python class, [StoryGenerator]: it renders an
    instruction block from its configuration, installs a prompt template
    for one of its input modes, and sends the rendered prompt through a
    chain of prompt template, hosted language model and JSON parser.

    The class is embedded as a record for the instance attributes and a
    state-and-exception monad for the methods.  The hosted models, the file
    system and the JSON parser of the prompting library are collaborators
    outside the repository: they are the fields of a record [services], and
    every call made to them is appended to a trace. *)

From Stdlib Require Import String Ascii List ZArith Lia Bool DecimalString.
From Stdlib.Strings Require Import Byte.
Import ListNotations.
Local Open Scope string_scope.

(** ** Python values *)

Module Py.

(** The double quote and the line feed, which no literal below spells. *)
Definition dq : string := String (ascii_of_nat 34) EmptyString.
Definition nl : string := String (ascii_of_nat 10) EmptyString.

(** [str(n)] for a Python [int]. *)
Definition str_of_int (n : Z) : string := NilZero.string_of_int (Z.to_int n).

(** [n // d], Python's floor division. *)
Definition floordiv (n d : Z) : Z := Z.div n d.

(** An [Optional[str]]: [None] is Python's [None]. *)
Definition optstr := option string.

(** Truth value of an [Optional[str]]: [None] and the empty string are
    false. *)
Definition truthy (v : optstr) : bool :=
  match v with
  | None => false
  | Some s => negb (s =? "")
  end.

(** [str(v)], as string formatting applies it to a value. *)
Definition str (v : optstr) : string :=
  match v with
  | None => "None"
  | Some s => s
  end.

(** [x in l] for a list of strings. *)
Definition contains (x : string) (l : list string) : bool :=
  existsb (String.eqb x) l.

(** The exceptions the program can meet.  [ExternalError] is whatever a
    hosted service raises, with the name of its class. *)
Inductive exn : Type :=
| AttributeError (attr : string)
| FileNotFoundError (path : string)
| KeyError (key : string)
| ValueError (msg : string)
| OutputParserException (llm_output : string)
| ExternalError (cls msg : string).

(** The name of the class of an exception. *)
Definition exn_class (e : exn) : string :=
  match e with
  | AttributeError _ => "AttributeError"
  | FileNotFoundError _ => "FileNotFoundError"
  | KeyError _ => "KeyError"
  | ValueError _ => "ValueError"
  | OutputParserException _ => "OutputParserException"
  | ExternalError cls _ => cls
  end.

(** A parsed JSON document (numbers restricted to integers). *)
#[local] Set Warnings "-register-all".
Inductive json : Type :=
| JNull
| JBool (b : bool)
| JNum (n : Z)
| JStr (s : string)
| JArr (items : list json)
| JObj (members : list (string * json)).

End Py.
Import Py.

(** ** Format strings

    The prompt templates are Python format strings: [{name}] is replaced by
    the value bound to [name], and a doubled brace stands for one brace.
    A lone closing brace and a field with no end are errors, and a name
    with no value is a [KeyError].  Replacement fields are plain names
    here: conversions, format specifications, attributes and indices, which
    no template of the source uses, are outside this embedding.  [parse]
    turns them down, where Python goes on to render some of them, so the
    embedding is exact on the templates [parse] accepts, and a property
    that rests on a rendering that fails is stated for those templates
    only. *)

Module Format.

Inductive segment : Type :=
| Lit (text : string)
| Field (name : string).

Definition flush (acc : string) (rest : list segment) : list segment :=
  match acc with
  | EmptyString => rest
  | _ => Lit acc :: rest
  end.

Definition snoc (acc : string) (c : ascii) : string :=
  acc ++ String c EmptyString.

(** Characters that end the plain name of a replacement field. *)
Definition special (c : ascii) : bool :=
  match c with
  | "{"%char | "!"%char | ":"%char | "."%char | "["%char => true
  | _ => false
  end.

(** [parse_text acc s] reads literal text, [acc] being the text read since
    the last field; [parse_field acc s] reads the name of a field. *)
Fixpoint parse_text (acc : string) (s : string) {struct s} : exn + list segment :=
  match s with
  | EmptyString => inr (flush acc [])
  | String "{"%char (String "{"%char rest) => parse_text (snoc acc "{"%char) rest
  | String "}"%char (String "}"%char rest) => parse_text (snoc acc "}"%char) rest
  | String "}"%char _ => inl (ValueError "Single '}' encountered in format string")
  | String "{"%char rest =>
      match parse_field EmptyString rest with
      | inl e => inl e
      | inr segs => inr (flush acc segs)
      end
  | String c rest => parse_text (snoc acc c) rest
  end
with parse_field (name : string) (s : string) {struct s} : exn + list segment :=
  match s with
  | EmptyString => inl (ValueError "expected '}' before end of string")
  | String "}"%char rest =>
      match parse_text EmptyString rest with
      | inl e => inl e
      | inr segs => inr (Field name :: segs)
      end
  | String c rest =>
      if special c then inl (ValueError "unsupported replacement field")
      else parse_field (snoc name c) rest
  end.

Definition parse (template : string) : exn + list segment :=
  parse_text EmptyString template.

(** Keyword arguments: the first binding of a name is the one in force. *)
Definition kwargs := list (string * string).

Fixpoint lookup (name : string) (kw : kwargs) : option string :=
  match kw with
  | [] => None
  | (k, v) :: kw' => if k =? name then Some v else lookup name kw'
  end.

Fixpoint render (segs : list segment) (kw : kwargs) : exn + string :=
  match segs with
  | [] => inr ""
  | Lit text :: segs' =>
      match render segs' kw with
      | inl e => inl e
      | inr out => inr (text ++ out)
      end
  | Field name :: segs' =>
      match lookup name kw with
      | None => inl (KeyError name)
      | Some v =>
          match render segs' kw with
          | inl e => inl e
          | inr out => inr (v ++ out)
          end
      end
  end.

(** The method [format] of a template, applied to keyword arguments. *)
Definition format (template : string) (kw : kwargs) : exn + string :=
  match parse template with
  | inl e => inl e
  | inr segs => render segs kw
  end.

End Format.

(** ** The literal texts of the source *)

Module Text.

(** The template of [set_context] for a context, as the text between the
    triple quotes, line breaks and indentation included: the text before
    the first placeholder, between the two, and after the second. *)
Definition context_head : string :=
  "
                Generate a short story based on the context provide in the STORY_CONTEXT section


                INSTRUCTIONS:
                    ".

Definition context_mid : string :=
  "

                STORY_CONTEXT:
                ".

Definition context_tail : string :=
  "
            ".

Definition context_template : string :=
  context_head ++ "{instructions_placeholder}" ++ context_mid
    ++ "{context_placeholder}" ++ context_tail.

(** The template of [set_image_context], cut the same way. *)
Definition image_context_head : string :=
  "
            Generate a short story based on the context provide in the STORY_CONTEXT section


            INSTRUCTIONS:
                ".

Definition image_context_mid : string :=
  "

            STORY_CONTEXT:
            ".

Definition image_context_tail : string :=
  "
        ".

Definition image_context_template : string :=
  image_context_head ++ "{instructions_placeholder}" ++ image_context_mid
    ++ "{context_placeholder}" ++ image_context_tail.

(** The template of [set_context] when neither a topic nor a context is
    given; its two line breaks are written as escapes in the source. *)
Definition default_topic_head : string := "Generate a story on ".

Definition default_topic_mid : string :=
  " " ++ nl ++ "INSTRUCTIONS: " ++ nl ++ " ".

Definition default_topic_template : string :=
  default_topic_head ++ "{TOPIC}" ++ default_topic_mid
    ++ "{instructions_placeholder}".

(** The analysis prompt sent with the image in [set_image_context]. *)
Definition image_description_prompt : string :=
  "
            **Objective:** Generate a comprehensive and detailed description of the provided image, focusing on aspects that will be useful for subsequent story generation.

            **Instructions:**

            1.  **Image Type & Overall Impression:**
                *   Begin by identifying the image type (e.g., photograph, painting, digital illustration, infographic, chart, etc.).
                *   Provide a brief summary of the overall impression or mood conveyed by the image. Is it whimsical, serious, chaotic, peaceful, etc.?

            2.  **Key Elements and Characters:**
                *   **Identify and Describe:**  Meticulously list and describe all significant elements, objects, and characters present in the image.
                *   **Character Details:** If characters are present, describe their:
                    *   Appearance (age, clothing, facial features, posture, etc.)
                    *   Possible emotions or expressions.
                    *   Interactions with other elements or characters, if any.
                *   **Object Details:** For objects, detail their:
                    *   Shape, size, material, and any distinctive features.
                    *   Position and arrangement within the image.
            
            3. **Visual Style and Aesthetics:**
                *  **Style:** Describe the overall artistic style of the image (e.g., realistic, abstract, cartoonish, impressionistic, etc.).
                * **Color Palette:**  Analyze and specify the dominant colors and color relationships, and describe the overall color scheme. How do they contribute to the image's atmosphere?
                * **Composition:** Comment on how elements are arranged within the image.  Is there a focal point? What are the effects of leading lines, perspectives, and symmetry?
                * **Lighting:** Describe the quality of light in the image (e.g. bright, dim, natural, artificial). How is light used to highlight the characters or create shadows and mood?
                
            4.  **Data and Information (if applicable):**
                *   **Statistical Data:** If the image contains numerical data, statistics, or values, explicitly state the numbers and their meaning. Present this information in a clear and concise manner using bullet points.
                *   **Charts, Graphs, Infographics, Tables:** If the image contains charts, graphs, or tables:
                    *   Describe the type of visualization (e.g., bar chart, pie chart, line graph).
                    *   Identify axes and labels.
                    *   Summarize the key data points and relationships displayed within the visualization.
                *   **Text and Labels:** If there is any text or labels, transcribe and include them in your description as pointers. Explain the purpose of the text.

            5.  **Contextual Relevance:**
                *   **Interpreting the Scene:** Consider if the elements seem related. Is there a sense of space or location?
                *   **Potential Story Hooks:** Briefly note any potential narrative elements that suggest a story. (e.g., a character looking determined, an unusual object, a mysterious atmosphere)

            6.  **Restrictions and Limitations:**
                *   **Image Based:**  Only describe aspects directly visible or inferred from the image.
                *   **Avoid Assumptions:** Do not add information or make assumptions that are not supported by the image content.

            **Example output structure**
            ```
            Type of image: Photograph
            Mood: Serene, nostalgic
            Key Elements:
                - An old wooden rowboat resting on a calm lake.
                - A few tall pine trees surrounding the lake
                - A soft, hazy sunset.

            Characters:
                - No people are present.
                - A family of ducks swimming near the boat.

            Style: Realistic
            Color Palette:
                - Dominant colors are muted shades of blue, grey, green, and orange.
                - The color palette creates a peaceful and somewhat melancholic mood.
            Composition:
                - The composition is horizontally oriented, with the rowboat as a point of interest in the left side, and a lot of empty space on the right

            Data:
            - No data is present
            
            Contextual relevance:
                - Suggests a feeling of peace and tranquility. It could be a scene from the past.

        ".

(** The f-string of [story_instructions]. *)
Definition instructions_text (n_words story_parts : Z)
    (story_theme story_inspiration : string) : string :=
  "
            You are an expert storyteller and visual content creator. Your task is to generate a compelling and visually engaging story based on provided context. The output should be structured for easy integration into a web application.

            **STORY GENERATION:**

            1.  **Story Length:** The generated story must not exceed a " ++ str_of_int n_words ++ "  word count.
            2.  **Story Segmentation:** Divide the story into a " ++ str_of_int story_parts ++ " number of parts. Each part should flow logically to create a cohesive narrative. 
            3.  **Story Theme:** The story must adhere to a given theme, which will be represented by " ++ story_theme ++ ". Ensure the plot, characters, and overall tone align with this theme.
            4.  **Inspiration Source:** Draw inspiration from the provided source, represented by " ++ story_inspiration ++ ". This could be a specific event, a historical figure, a literary work, or any other relevant input. Let the inspiration influence the story's narrative, but don't plagiarize directly.
            5.  **Title:** Create a concise and engaging title for the story.
            6.  **Introduction:** Craft a brief introduction (50-60 words) that sets the scene, introduces the main idea, and piques the reader's interest.
            7.  " ++ dq ++ dq ++ "Theme:** Create a small description about the theme of the story, this should contain small context, what colors, style will suit to show this story over the web, this will be used to ask a theme generator to generator colors, font-colors, styles for the web page where story will be posted

            **IMAGE PROMPT GENERATION (For Each Story Part):**

            1.  **Purpose:** Generate a distinct, concise, and clear image prompt for each story part. These prompts will be used by a separate image generation model.
            2.  **Context Alignment:** Ensure each image prompt aligns directly with the content of its respective story part.
            3.  **Visual Style:** The generated images should:
                *   Have a light and predominantly white background to accommodate text overlay.
                *   Image and image should match the inspiration from " ++ story_inspiration ++ " and theme from " ++ story_theme ++ "
                *   Image prompt should clearly mention the color palletes to be used to generate the image, so that following image should have same contrast, colors and backgrounds
            4.  **Prompt Clarity:** The image prompts must be concise, focusing on key visual elements, and avoid unnecessary detail.
            5.  **Prompt Safety:** Prompt should follow the responsible AI guidelines and Do not include anything related to child, sexual orientation, realted to any race, image prompt should be 
                appropriate to the general audience without hurting any sentiments
            6.  **Characters:** If prompt includes to generate any character, person, imaginary figure, then add details of those so that other similar
                prompts of the story parts images should have same characters/persons/imaginary figures in the images.

            **HTML STYLE GUIDE:**

            1.  **Purpose:** Define a cohesive and aesthetically pleasing style guide for the HTML formatting of the story. This will include the background color, font color, and font family.
            2.  **Context Matching:** The style guide must complement the story theme, image styles, and be visually appealing to the target audience. Aim for a smooth, comfortable reading experience that enhances engagement.
            3.  **Specific Attributes:** The style guide will include:
                *   `background-color`: a background color suitable for the story's theme and image aesthetic.
                *   `font-color`: a font color that provides sufficient contrast against the background, ensuring easy readability.
                *   `font-family`:  a readable font family that fits the overall tone and style of the story and image theme.

            **OUTPUT FORMAT (JSON):**

            1.  **Structure:** The output MUST be in JSON format.
            2.  **Top-Level Keys:** The JSON object must contain the following top-level keys: `style`, `title`, `introduction`, and `story`.
                *   `style`: should contain the HTML style parameters which will be passed to HTML component
                    * `background-color`: color to be used as background color for html
                    * `font-color`: color to be used as font color for the story text
                    * `font-family`: which font will be best suited for the story
                *   `title`: The generated title of the story.
                *   `introduction`: The short introduction to the story.
                *   `theme`: The style guide theme for the story to be used for css styling
                *   `story`:  A nested JSON object that contains each story part.
            3.  **Story Parts:** The `story` object will be a nested structure where each key represents a story part number (e.g., `part_1`, `part_2`, etc.).
            4.  **Part Contents:** Each story part (e.g., `part_1`, `part_2`, etc.) will be a nested JSON object with the following keys:
                *   `story`: The generated content of that particular story part.
                *   `image_prompt`: The image prompt for that specific story part.

            **Example JSON structure:**

            ```json
                " ++ dq ++ "style" ++ dq ++ ": 
                    " ++ dq ++ "background-color" ++ dq ++ ": " ++ dq ++ "#f0f8ff" ++ dq ++ ",
                    " ++ dq ++ "font-color" ++ dq ++ ": " ++ dq ++ "#333" ++ dq ++ ",
                    " ++ dq ++ "font-family" ++ dq ++ ": " ++ dq ++ "Arial, sans-serif" ++ dq ++ "
                ,
                " ++ dq ++ "title" ++ dq ++ ": " ++ dq ++ "The Magical Treehouse Adventure" ++ dq ++ ",
                " ++ dq ++ "introduction" ++ dq ++ ": " ++ dq ++ "Lily and Tom discover a hidden treehouse in their backyard, leading them on an amazing adventure through enchanted lands and whimsical creatures." ++ dq ++ ",
                " ++ dq ++ "theme" ++ dq ++ ": " ++ dq ++ "Story is of 2 friends about there adventures, styles which will suit for sharing this story will be vibrant, showing high contrast of colors, color pallete which will suit this story might be #A31D1D, #E5D0AC, #FEF9E1" ++ dq ++ "
                " ++ dq ++ "story" ++ dq ++ ": 
                    " ++ dq ++ "part_1" ++ dq ++ ": 
                        " ++ dq ++ "story" ++ dq ++ ": " ++ dq ++ "The sun peeked through the leaves as Lily and Tom stumbled upon a rickety ladder leading to a treehouse hidden among the branches." ++ dq ++ ",
                        " ++ dq ++ "image_prompt" ++ dq ++ ": " ++ dq ++ "A sunny, whimsical treehouse hidden in a lush forest with a ladder leading up to it. Light background, 1/3 of a corner should be free for the text." ++ dq ++ "
                    ,
                    " ++ dq ++ "part_2" ++ dq ++ ": 
                        " ++ dq ++ "story" ++ dq ++ ": " ++ dq ++ "Inside, they found a sparkling map that promised a journey to the land of talking animals." ++ dq ++ ",
                        " ++ dq ++ "image_prompt" ++ dq ++ ": " ++ dq ++ "Inside the treehouse, a map glitters invitingly, surrounded by simple wooden furniture, light background, 1/3 corner free for text" ++ dq ++ "
                    ,
                    " ++ dq ++ "part_3" ++ dq ++ ": 
                        " ++ dq ++ "story" ++ dq ++ ": " ++ dq ++ "They met a friendly fox who gave them directions to the land of happy smiles" ++ dq ++ ",
                        " ++ dq ++ "image_prompt" ++ dq ++ ": " ++ dq ++ "A smiling fox and two young children standing on a path surrounded by lush green grass, light background, 1/3 corner free for text" ++ dq ++ "
                     
            ```
                    
        ".

End Text.

(** ** The instance, its collaborators and the trace of their calls *)

(** An image payload, as the caller hands it over. *)
Definition Image := list byte.

(** A prompt template object: the three arguments its constructor is given
    in [generate_response]. *)
Record PromptTemplate : Type := {
  template : string;
  declared_variables : list string;
  partial_variables : Format.kwargs
}.

(** A call that leaves the process. *)
Inductive event : Type :=
| FileRead (path : string)
| DescribeImage (prompt : string) (img : Image)
| GenerateText (prompt : string).

(** What lies outside the repository.  A hosted model or the file system
    may answer differently from one call to the next, so each answer may
    depend on the calls made so far.
    - [read_text]: [open(path, 'r').read()], [None] when the file is missing;
    - [image_to_text]: [image_to_text_model.generate_content([prompt, img]).text];
    - [llm]: the language model applied to the rendered prompt;
    - [format_instructions]: [parser.get_format_instructions()] of the
      [JsonOutputParser] built on the [Story] schema;
    - [parse]: that parser applied to the text of the language model. *)
Record services : Type := {
  read_text : list event -> string -> option string;
  image_to_text : list event -> string -> Image -> exn + string;
  llm : list event -> string -> exn + string;
  format_instructions : string;
  parse : string -> exn + json
}.

(** The attributes of a [StoryGenerator].  The first three are the arguments
    of the constructor; each of the others is absent ([None]) until a method
    assigns it. *)
Record StoryGenerator : Type := {
  story_theme : string;
  story_inspiration : string;
  n_words : Z;
  story_parts : option Z;
  instrucitons : option string;
  topic : option optstr;
  context : option optstr;
  prompt_template : option string;
  input_variables : option (list string);
  image : option Image;
  image_prompt : option (string * Image);
  prompt : option PromptTemplate;
  response : option json
}.

(** Attribute assignments. *)
Definition set_story_parts (v : Z) (g : StoryGenerator) : StoryGenerator :=
  {| story_theme := story_theme g; story_inspiration := story_inspiration g;
     n_words := n_words g; story_parts := Some v;
     instrucitons := instrucitons g; topic := topic g; context := context g;
     prompt_template := prompt_template g;
     input_variables := input_variables g; image := image g;
     image_prompt := image_prompt g; prompt := prompt g;
     response := response g |}.

Definition set_instrucitons (v : string) (g : StoryGenerator) : StoryGenerator :=
  {| story_theme := story_theme g; story_inspiration := story_inspiration g;
     n_words := n_words g; story_parts := story_parts g;
     instrucitons := Some v; topic := topic g; context := context g;
     prompt_template := prompt_template g;
     input_variables := input_variables g; image := image g;
     image_prompt := image_prompt g; prompt := prompt g;
     response := response g |}.

Definition set_topic (v : optstr) (g : StoryGenerator) : StoryGenerator :=
  {| story_theme := story_theme g; story_inspiration := story_inspiration g;
     n_words := n_words g; story_parts := story_parts g;
     instrucitons := instrucitons g; topic := Some v; context := context g;
     prompt_template := prompt_template g;
     input_variables := input_variables g; image := image g;
     image_prompt := image_prompt g; prompt := prompt g;
     response := response g |}.

Definition set_context_attr (v : optstr) (g : StoryGenerator) : StoryGenerator :=
  {| story_theme := story_theme g; story_inspiration := story_inspiration g;
     n_words := n_words g; story_parts := story_parts g;
     instrucitons := instrucitons g; topic := topic g; context := Some v;
     prompt_template := prompt_template g;
     input_variables := input_variables g; image := image g;
     image_prompt := image_prompt g; prompt := prompt g;
     response := response g |}.

Definition set_prompt_template (v : string) (g : StoryGenerator) : StoryGenerator :=
  {| story_theme := story_theme g; story_inspiration := story_inspiration g;
     n_words := n_words g; story_parts := story_parts g;
     instrucitons := instrucitons g; topic := topic g; context := context g;
     prompt_template := Some v;
     input_variables := input_variables g; image := image g;
     image_prompt := image_prompt g; prompt := prompt g;
     response := response g |}.

Definition set_input_variables (v : list string) (g : StoryGenerator) : StoryGenerator :=
  {| story_theme := story_theme g; story_inspiration := story_inspiration g;
     n_words := n_words g; story_parts := story_parts g;
     instrucitons := instrucitons g; topic := topic g; context := context g;
     prompt_template := prompt_template g;
     input_variables := Some v; image := image g;
     image_prompt := image_prompt g; prompt := prompt g;
     response := response g |}.

Definition set_image (v : Image) (g : StoryGenerator) : StoryGenerator :=
  {| story_theme := story_theme g; story_inspiration := story_inspiration g;
     n_words := n_words g; story_parts := story_parts g;
     instrucitons := instrucitons g; topic := topic g; context := context g;
     prompt_template := prompt_template g;
     input_variables := input_variables g; image := Some v;
     image_prompt := image_prompt g; prompt := prompt g;
     response := response g |}.

Definition set_image_prompt (v : string * Image) (g : StoryGenerator) : StoryGenerator :=
  {| story_theme := story_theme g; story_inspiration := story_inspiration g;
     n_words := n_words g; story_parts := story_parts g;
     instrucitons := instrucitons g; topic := topic g; context := context g;
     prompt_template := prompt_template g;
     input_variables := input_variables g; image := image g;
     image_prompt := Some v; prompt := prompt g;
     response := response g |}.

Definition set_prompt (v : PromptTemplate) (g : StoryGenerator) : StoryGenerator :=
  {| story_theme := story_theme g; story_inspiration := story_inspiration g;
     n_words := n_words g; story_parts := story_parts g;
     instrucitons := instrucitons g; topic := topic g; context := context g;
     prompt_template := prompt_template g;
     input_variables := input_variables g; image := image g;
     image_prompt := image_prompt g; prompt := Some v;
     response := response g |}.

Definition set_response (v : json) (g : StoryGenerator) : StoryGenerator :=
  {| story_theme := story_theme g; story_inspiration := story_inspiration g;
     n_words := n_words g; story_parts := story_parts g;
     instrucitons := instrucitons g; topic := topic g; context := context g;
     prompt_template := prompt_template g;
     input_variables := input_variables g; image := image g;
     image_prompt := image_prompt g; prompt := prompt g;
     response := Some v |}.

(** ** The monad of the methods

    A method runs on the instance and the trace, and ends with a value or
    an exception.  What it assigned before raising stays assigned. *)

Record state : Type := {
  self : StoryGenerator;
  trace : list event
}.

Definition M (A : Type) : Type := state -> state * (exn + A).

Definition ret {A : Type} (a : A) : M A := fun s => (s, inr a).

Definition bind {A B : Type} (c : M A) (k : A -> M B) : M B :=
  fun s =>
    match c s with
    | (s', inl e) => (s', inl e)
    | (s', inr a) => k a s'
    end.

Definition raise {A : Type} (e : exn) : M A := fun s => (s, inl e).

(** [try: c  except Exception as e: handler e]. *)
Definition try_except {A : Type} (c : M A) (handler : exn -> M A) : M A :=
  fun s =>
    match c s with
    | (s', inl e) => handler e s'
    | (s', inr a) => (s', inr a)
    end.

Declare Scope method_scope.
Delimit Scope method_scope with method.
Notation "x <- c ;; k" := (bind c (fun x => k))
  (at level 61, c at next level, right associativity) : method_scope.
Notation "c ;; k" := (bind c (fun _ => k))
  (at level 61, right associativity) : method_scope.
Local Open Scope method_scope.

(** [self.attr = v]. *)
Definition assign (f : StoryGenerator -> StoryGenerator) : M unit :=
  fun s => ({| self := f (self s); trace := trace s |}, inr tt).

(** [self.attr], for an attribute the constructor assigns. *)
Definition field {A : Type} (proj : StoryGenerator -> A) : M A :=
  fun s => (s, inr (proj (self s))).

(** [self.attr], which raises [AttributeError] while the attribute is
    absent. *)
Definition getattr {A : Type} (name : string)
    (proj : StoryGenerator -> option A) : M A :=
  fun s =>
    match proj (self s) with
    | Some v => (s, inr v)
    | None => (s, inl (AttributeError name))
    end.

(** A result computed without the state. *)
Definition lift {A : Type} (r : exn + A) : M A := fun s => (s, r).

(** The final state and the outcome of a method. *)
Definition final {A : Type} (r : state * (exn + A)) : state := fst r.
Definition outcome {A : Type} (r : state * (exn + A)) : exn + A := snd r.

(** ** The methods of [StoryGenerator] *)

Section Methods.

Variable E : services.

(** The three calls out of the process; each is recorded before its
    answer is looked at. *)
Definition record_call (ev : event) (s : state) : state :=
  {| self := self s; trace := (trace s ++ [ev])%list |}.

Definition open_read (path : string) : M string :=
  fun s =>
    match read_text E (trace s) path with
    | Some text => (record_call (FileRead path) s, inr text)
    | None => (record_call (FileRead path) s, inl (FileNotFoundError path))
    end.

Definition generate_content (request : string * Image) : M string :=
  fun s =>
    (record_call (DescribeImage (fst request) (snd request)) s,
     image_to_text E (trace s) (fst request) (snd request)).

Definition llm_invoke (text : string) : M string :=
  fun s => (record_call (GenerateText text) s, llm E (trace s) text).

(** [story_instructions]: the part count and the instruction block. *)
Definition story_instructions : M unit :=
  n <- field n_words ;;
  assign (set_story_parts (floordiv n 200)) ;;
  words <- field n_words ;;
  parts <- getattr "story_parts" story_parts ;;
  theme <- field story_theme ;;
  inspiration <- field story_inspiration ;;
  assign (set_instrucitons
            (Text.instructions_text words parts theme inspiration)).

(** [__init__]: a new instance holds the three arguments and what
    [story_instructions] derives from them; nothing has been called yet. *)
Definition blank (theme inspiration : string) (words : Z) : StoryGenerator :=
  {| story_theme := theme; story_inspiration := inspiration;
     n_words := words; story_parts := None; instrucitons := None;
     topic := None; context := None; prompt_template := None;
     input_variables := None; image := None; image_prompt := None;
     prompt := None; response := None |}.

Definition init (theme inspiration : string) (words : Z) : state :=
  final (story_instructions
           {| self := blank theme inspiration words; trace := [] |}).

(** [set_context(context, topic)]. *)
Definition set_context (ctx tpc : optstr) : M unit :=
  assign (set_topic tpc) ;;
  assign (set_context_attr ctx) ;;
  if truthy tpc then
    assign (set_topic tpc) ;;
    text <- open_read "inputs/prompt_w_topic.txt" ;;
    assign (set_prompt_template text) ;;
    assign (set_input_variables ["TOPIC"; "instructions_placeholder"])
  else if truthy ctx then
    assign (set_context_attr ctx) ;;
    assign (set_prompt_template Text.context_template) ;;
    assign (set_input_variables
              ["instructions_placeholder"; "context_placeholder"])
  else
    assign (set_prompt_template Text.default_topic_template) ;;
    assign (set_input_variables ["TOPIC"; "instructions_placeholder"]).

(** [set_image_context(img)]. *)
Definition set_image_context (img : Image) : M unit :=
  assign (set_image img) ;;
  stored <- getattr "image" image ;;
  assign (set_image_prompt (Text.image_description_prompt, stored)) ;;
  request <- getattr "image_prompt" image_prompt ;;
  description <- generate_content request ;;
  assign (set_context_attr (Some description)) ;;
  assign (set_prompt_template Text.image_context_template) ;;
  assign (set_input_variables
            ["instructions_placeholder"; "context_placeholder"]).

(** The constructor of the prompt template reads the template once and
    refuses one that is not a format string. *)
Definition PromptTemplate_new (tpl : string) (vars : list string)
    (partial : Format.kwargs) : M PromptTemplate :=
  match Format.parse tpl with
  | inl e => raise e
  | inr _ =>
      ret {| template := tpl; declared_variables := vars;
             partial_variables := partial |}
  end.

(** [(prompt | llm | parser).invoke(input)]: the template is rendered with
    the input and the partial variables, the text goes to the language
    model, and what comes back goes to the parser. *)
Definition chain_invoke (p : PromptTemplate) (input : Format.kwargs) : M json :=
  text <- lift (Format.format (template p)
                  (input ++ partial_variables p)%list) ;;
  answer <- llm_invoke text ;;
  lift (parse E answer).

(** [generate_response()]. *)
Definition generate_response : M json :=
  try_except
    (tpl <- getattr "prompt_template" prompt_template ;;
     vars <- getattr "input_variables" input_variables ;;
     p <- PromptTemplate_new tpl vars
            [("format_instructions", format_instructions E)] ;;
     assign (set_prompt p) ;;
     vars' <- getattr "input_variables" input_variables ;;
     (if contains "context_placeholder" vars' then
        chain <- getattr "prompt" prompt ;;
        instructions <- getattr "instrucitons" instrucitons ;;
        ctx <- getattr "context" context ;;
        r <- chain_invoke chain
               [("instructions_placeholder", instructions);
                ("context_placeholder", str ctx)] ;;
        assign (set_response r)
      else
        tpc <- getattr "topic" topic ;;
        match tpc with
        | None => assign (set_topic (Some "Random"))
        | Some _ => ret tt
        end ;;
        chain <- getattr "prompt" prompt ;;
        instructions <- getattr "instrucitons" instrucitons ;;
        tpc' <- getattr "topic" topic ;;
        r <- chain_invoke chain
               [("instructions_placeholder", instructions);
                ("TOPIC", str tpc')] ;;
        assign (set_response r)) ;;
     getattr "response" response)
    (fun e => raise e).

End Methods.

(** ** The structural contract of the specification

    [story_result_ok] follows the words of the specification, not the
    source: all five top-level keys, the three keys of [style], and a
    [story] of exactly [part_count] entries [part_1] .. [part_N], each with
    a non-empty [story] and a non-empty [image_prompt]. *)

Module Contract.

Fixpoint member (key : string) (members : list (string * json)) : option json :=
  match members with
  | [] => None
  | (k, v) :: rest => if k =? key then Some v else member key rest
  end.

Definition has_key (key : string) (members : list (string * json)) : bool :=
  match member key members with
  | Some _ => true
  | None => false
  end.

Definition nonempty_string (v : option json) : bool :=
  match v with
  | Some (JStr s) => negb (s =? "")
  | _ => false
  end.

Definition part_ok (v : option json) : bool :=
  match v with
  | Some (JObj fields) =>
      nonempty_string (member "story" fields)
      && nonempty_string (member "image_prompt" fields)
  | _ => false
  end.

Definition part_key (i : nat) : string := "part_" ++ str_of_int (Z.of_nat i).

Definition story_ok (part_count : Z) (v : option json) : bool :=
  match v with
  | Some (JObj parts) =>
      (Z.of_nat (length parts) =? part_count)%Z
      && forallb (fun i => part_ok (member (part_key i) parts))
           (seq 1 (length parts))
  | _ => false
  end.

Definition style_ok (v : option json) : bool :=
  match v with
  | Some (JObj fields) =>
      has_key "background-color" fields
      && has_key "font-color" fields
      && has_key "font-family" fields
  | _ => false
  end.

Definition story_result_ok (part_count : Z) (j : json) : bool :=
  match j with
  | JObj top =>
      style_ok (member "style" top)
      && has_key "title" top
      && has_key "introduction" top
      && has_key "theme" top
      && story_ok part_count (member "story" top)
  | _ => false
  end.

End Contract.

(** ** Stand-ins for the collaborators

    Concrete services to run the methods on: a template file with the two
    placeholders of the topic mode, an image model and a language model
    with fixed answers, and a reader of JSON text that raises the
    exception of the library's parser, with the stripped text in it, on
    text that is not JSON. *)

Module Mock.

Definition quote : ascii := ascii_of_nat 34.
Definition backslash : ascii := ascii_of_nat 92.

(** White space as [str.strip] and as JSON see it. *)
Definition py_space (c : ascii) : bool :=
  let n := nat_of_ascii c in
  (((9 <=? n) && (n <=? 13)) || ((28 <=? n) && (n <=? 32)))%nat.

Definition json_space (c : ascii) : bool :=
  let n := nat_of_ascii c in
  ((n =? 9) || (n =? 10) || (n =? 13) || (n =? 32))%nat.

Fixpoint lstrip (s : string) : string :=
  match s with
  | String c rest => if py_space c then lstrip rest else s
  | EmptyString => s
  end.

Fixpoint reverse (s acc : string) : string :=
  match s with
  | String c rest => reverse rest (String c acc)
  | EmptyString => acc
  end.

Definition strip (s : string) : string :=
  reverse (lstrip (reverse (lstrip s) "")) "".

Fixpoint skip (s : string) : string :=
  match s with
  | String c rest => if json_space c then skip rest else s
  | EmptyString => s
  end.

Definition unescape (c : ascii) : option ascii :=
  if Ascii.eqb c quote then Some quote
  else if Ascii.eqb c backslash then Some backslash
  else
    match c with
    | "/"%char => Some "/"%char
    | "n"%char => Some (ascii_of_nat 10)
    | "t"%char => Some (ascii_of_nat 9)
    | "r"%char => Some (ascii_of_nat 13)
    | "b"%char => Some (ascii_of_nat 8)
    | "f"%char => Some (ascii_of_nat 12)
    | _ => None
    end.

(** The rest of a string literal, after its opening quote. *)
Fixpoint read_string (acc : string) (s : string) {struct s} : option (string * string) :=
  match s with
  | EmptyString => None
  | String c rest =>
      if Ascii.eqb c quote then Some (acc, rest)
      else if Ascii.eqb c backslash then
        match rest with
        | String e rest' =>
            match unescape e with
            | Some c' => read_string (acc ++ String c' "") rest'
            | None => None
            end
        | EmptyString => None
        end
      else read_string (acc ++ String c "") rest
  end.

Definition digit (c : ascii) : option Z :=
  let n := nat_of_ascii c in
  if ((48 <=? n) && (n <=? 57))%nat then Some (Z.of_nat (n - 48)) else None.

Fixpoint read_digits (acc : Z) (s : string) : Z * string :=
  match s with
  | String c rest =>
      match digit c with
      | Some d => read_digits (10 * acc + d) rest
      | None => (acc, s)
      end
  | EmptyString => (acc, s)
  end.

(** An integer with no leading zero; a fraction or an exponent is outside
    this reader. *)
Definition read_natural (s : string) : option (Z * string) :=
  match s with
  | String c rest =>
      match digit c with
      | Some d =>
          let (n, rest') := read_digits d rest in
          match rest' with
          | String "."%char _ | String "e"%char _ | String "E"%char _ => None
          | _ =>
              if (d =? 0)%Z && negb (String.length s - String.length rest' =? 1)%nat
              then None else Some (n, rest')
          end
      | None => None
      end
  | EmptyString => None
  end.

Definition read_word (word : string) (v : json) (s : string) : option (json * string) :=
  if String.prefix word s
  then Some (v, substring (String.length word)
                  (String.length s - String.length word) s)
  else None.

(** A later member of an object replaces an earlier one of its name. *)
Fixpoint dict_set (key : string) (v : json) (members : list (string * json))
    : list (string * json) :=
  match members with
  | [] => [(key, v)]
  | (k, w) :: rest =>
      if k =? key then (k, v) :: rest else (k, w) :: dict_set key v rest
  end.

Fixpoint read_value (fuel : nat) (s : string) {struct fuel} : option (json * string) :=
  match fuel with
  | O => None
  | S fuel' =>
      match skip s with
      | EmptyString => None
      | String c rest =>
          if Ascii.eqb c quote then
            match read_string "" rest with
            | Some (text, rest') => Some (JStr text, rest')
            | None => None
            end
          else
            match c with
            | "{"%char =>
                match skip rest with
                | String "}"%char rest' => Some (JObj [], rest')
                | _ => read_members fuel' [] rest
                end
            | "["%char =>
                match skip rest with
                | String "]"%char rest' => Some (JArr [], rest')
                | _ => read_items fuel' [] rest
                end
            | "t"%char => read_word "true" (JBool true) (String c rest)
            | "f"%char => read_word "false" (JBool false) (String c rest)
            | "n"%char => read_word "null" JNull (String c rest)
            | "-"%char =>
                match read_natural rest with
                | Some (n, rest') => Some (JNum (- n), rest')
                | None => None
                end
            | _ =>
                match read_natural (String c rest) with
                | Some (n, rest') => Some (JNum n, rest')
                | None => None
                end
            end
      end
  end
with read_members (fuel : nat) (acc : list (string * json)) (s : string)
    {struct fuel} : option (json * string) :=
  match fuel with
  | O => None
  | S fuel' =>
      match skip s with
      | String c rest =>
          if Ascii.eqb c quote then
            match read_string "" rest with
            | Some (key, rest1) =>
                match skip rest1 with
                | String ":"%char rest2 =>
                    match read_value fuel' rest2 with
                    | Some (v, rest3) =>
                        match skip rest3 with
                        | String ","%char rest4 =>
                            read_members fuel' (dict_set key v acc) rest4
                        | String "}"%char rest4 =>
                            Some (JObj (dict_set key v acc), rest4)
                        | _ => None
                        end
                    | None => None
                    end
                | _ => None
                end
            | None => None
            end
          else None
      | EmptyString => None
      end
  end
with read_items (fuel : nat) (acc : list json) (s : string)
    {struct fuel} : option (json * string) :=
  match fuel with
  | O => None
  | S fuel' =>
      match read_value fuel' s with
      | Some (v, rest) =>
          match skip rest with
          | String ","%char rest' => read_items fuel' (acc ++ [v])%list rest'
          | String "]"%char rest' => Some (JArr (acc ++ [v])%list, rest')
          | _ => None
          end
      | None => None
      end
  end.

(** One JSON value and nothing after it but white space. *)
Definition loads (s : string) : option json :=
  match read_value (2 * String.length s + 2) s with
  | Some (j, rest) =>
      match skip rest with
      | EmptyString => Some j
      | _ => None
      end
  | None => None
  end.

Definition json_output_parser (text : string) : exn + json :=
  match loads (strip text) with
  | Some j => inr j
  | None => inl (OutputParserException (strip text))
  end.

Definition topic_file : string :=
  "Write a story about {TOPIC}." ++ nl ++ "{instructions_placeholder}".

Definition description : string := "A wooden rowboat rests on a calm lake.".

Definition directive : string :=
  "The output should be formatted as a JSON instance that conforms to the JSON schema below.".

(** Services whose language model answers [answer] to every prompt. *)
Definition answering (answer : string) : services :=
  {| read_text := fun _ path =>
       if path =? "inputs/prompt_w_topic.txt" then Some topic_file else None;
     image_to_text := fun _ _ _ => inr description;
     llm := fun _ _ => inr answer;
     format_instructions := directive;
     parse := json_output_parser |}.

End Mock.

(** ** What the inline templates render to, and how texts compare *)

Module Rendered.

Definition context_prompt (instructions ctx : string) : string :=
  Text.context_head ++ instructions ++ Text.context_mid ++ ctx
    ++ Text.context_tail.

Definition image_context_prompt (instructions ctx : string) : string :=
  Text.image_context_head ++ instructions ++ Text.image_context_mid ++ ctx
    ++ Text.image_context_tail.

Definition default_topic_prompt (tpc instructions : string) : string :=
  Text.default_topic_head ++ tpc ++ Text.default_topic_mid ++ instructions.

End Rendered.

(** [needle] stands somewhere in [hay]: as a proposition, and as a test. *)
Definition occurs_in (needle hay : string) : Prop :=
  exists before after, hay = before ++ needle ++ after.

Fixpoint infix (needle hay : string) : bool :=
  String.prefix needle hay
  || match hay with
     | EmptyString => false
     | String _ rest => infix needle rest
     end.

(** [indent_lines pad true text] puts [pad] before every line of [text]
    that is not empty. *)
Fixpoint indent_lines (pad : string) (line_start : bool) (text : string) : string :=
  match text with
  | EmptyString => EmptyString
  | String c rest =>
      if Ascii.eqb c (ascii_of_nat 10)
      then String c (indent_lines pad true rest)
      else (if line_start then pad else "")
             ++ String c (indent_lines pad false rest)
  end.

(** The course of a generation once the prompt [text] is rendered from the
    template object [p]: the object is stored, the text is sent, and the
    answer goes through the parser, whose result is stored and returned. *)
Definition sent (E : services) (s : state) (p : PromptTemplate) (text : string)
    : state * (exn + json) :=
  let s1 := record_call (GenerateText text)
              {| self := set_prompt p (self s); trace := trace s |} in
  match llm E (trace s) text with
  | inl e => (s1, inl e)
  | inr answer =>
      match parse E answer with
      | inl e => (s1, inl e)
      | inr j => ({| self := set_response j (self s1); trace := trace s1 |}, inr j)
      end
  end.

(** A generation touches two attributes of the instance at most: the
    template object and the response. *)
Definition same_but_prompt_and_response (g g' : StoryGenerator) : Prop :=
  story_theme g' = story_theme g
  /\ story_inspiration g' = story_inspiration g
  /\ n_words g' = n_words g
  /\ story_parts g' = story_parts g
  /\ instrucitons g' = instrucitons g
  /\ topic g' = topic g
  /\ context g' = context g
  /\ prompt_template g' = prompt_template g
  /\ input_variables g' = input_variables g
  /\ image g' = image g
  /\ image_prompt g' = image_prompt g.

(** In the branch of the topic, the topic is replaced when it is [None]. *)
Definition with_default_topic (s : state) : state :=
  match topic (self s) with
  | Some None => {| self := set_topic (Some "Random") (self s); trace := trace s |}
  | _ => s
  end.

(** The template object [generate_response] builds. *)
Definition prompt_object (E : services) (tpl : string) (vars : list string)
    : PromptTemplate :=
  {| template := tpl; declared_variables := vars;
     partial_variables := [("format_instructions", format_instructions E)] |}.

(** The instance with default arguments, and the paths and names the
    source spells out. *)
Definition default_instance : state := init "General" "General" 200.

Definition topic_file_path : string := "inputs/prompt_w_topic.txt".

Definition topic_variables : list string := ["TOPIC"; "instructions_placeholder"].

Definition context_variables : list string :=
  ["instructions_placeholder"; "context_placeholder"].

(** The sentence of the instruction block that states the part count. *)
Definition segmentation_sentence (parts : Z) : string :=
  "Divide the story into a " ++ str_of_int parts ++ " number of parts.".

(** What a generation may change in the instance: the template object, the
    response, and a topic that was [None]. *)
Definition generation_frame (g g' : StoryGenerator) : Prop :=
  story_theme g' = story_theme g
  /\ story_inspiration g' = story_inspiration g
  /\ n_words g' = n_words g
  /\ story_parts g' = story_parts g
  /\ instrucitons g' = instrucitons g
  /\ context g' = context g
  /\ prompt_template g' = prompt_template g
  /\ input_variables g' = input_variables g
  /\ image g' = image g
  /\ image_prompt g' = image_prompt g
  /\ (topic g' = topic g
      \/ (topic g = Some None /\ topic g' = Some (Some "Random"))).

(** ** Instances to run the methods on *)

(** The instruction block of the instance with default arguments. *)
Definition default_instructions : string :=
  Text.instructions_text 200 1 "General" "General".

(** The default instance after the selection of a context, with a language
    model that answers with an empty JSON object. *)
Definition misty_forest : state :=
  final (set_context (Mock.answering "{}") (Some "A misty forest") None
           default_instance).

(** An image of two bytes. *)
Definition two_bytes : Image := [x89; x50]%list.

(** ** Variations of the collaborators *)

(** The services [E] with no file to read. *)
Definition without_files (E : services) : services :=
  {| read_text := fun _ _ => None;
     image_to_text := image_to_text E;
     llm := llm E;
     format_instructions := format_instructions E;
     parse := parse E |}.

(** The services [E] with [text] as the content of every file. *)
Definition with_file (text : string) (E : services) : services :=
  {| read_text := fun _ _ => Some text;
     image_to_text := image_to_text E;
     llm := llm E;
     format_instructions := format_instructions E;
     parse := parse E |}.

(** The services [E] with an image model that raises [e]. *)
Definition with_failing_image_model (e : exn) (E : services) : services :=
  {| read_text := read_text E;
     image_to_text := fun _ _ _ => inl e;
     llm := llm E;
     format_instructions := format_instructions E;
     parse := parse E |}.

(** The services [E] with a language model that raises [e]. *)
Definition with_failing_language_model (e : exn) (E : services) : services :=
  {| read_text := read_text E;
     image_to_text := image_to_text E;
     llm := fun _ _ => inl e;
     format_instructions := format_instructions E;
     parse := parse E |}.

(** The services [E] with other format instructions. *)
Definition with_format_instructions (text : string) (E : services) : services :=
  {| read_text := read_text E;
     image_to_text := image_to_text E;
     llm := llm E;
     format_instructions := text;
     parse := parse E |}.

(** What a service may raise when it is out of reach. *)
Definition service_unavailable : exn :=
  ExternalError "ServiceUnavailable" "503 The model is overloaded.".

(** The instance of [misty_forest] after its word count was assigned from
    outside, with no call of [story_instructions] since. *)
Definition misty_forest_reconfigured : StoryGenerator :=
  {| story_theme := "Adventure"; story_inspiration := "Folk tales";
     n_words := 1000;
     story_parts := story_parts (self misty_forest);
     instrucitons := instrucitons (self misty_forest);
     topic := topic (self misty_forest);
     context := context (self misty_forest);
     prompt_template := prompt_template (self misty_forest);
     input_variables := input_variables (self misty_forest);
     image := image (self misty_forest);
     image_prompt := image_prompt (self misty_forest);
     prompt := prompt (self misty_forest);
     response := response (self misty_forest) |}.

(** Template files: one with a field of the format instructions, one with a
    field that [generate_response] gives no value to. *)
Definition topic_file_with_directive : string :=
  "Write a story about {TOPIC}." ++ nl ++ "{instructions_placeholder}" ++ nl
    ++ "{format_instructions}".

Definition topic_file_with_mood : string :=
  "Write a {mood} story about {TOPIC}." ++ nl ++ "{instructions_placeholder}".

(** * Properties *)

Arguments Format.parse : simpl never.
Arguments Format.format : simpl never.

(** ** Format strings *)

Lemma append_empty (s : string) : s ++ "" = s.
Proof.
  induction s as [| c s IH]; simpl; [reflexivity | now rewrite IH].
Qed.

Lemma format_context_template (i c : string) (rest : Format.kwargs) :
  Format.format Text.context_template
    (("instructions_placeholder", i) :: ("context_placeholder", c) :: rest)
  = inr (Rendered.context_prompt i c).
Proof. vm_compute. reflexivity. Qed.

Lemma format_image_context_template (i c : string) (rest : Format.kwargs) :
  Format.format Text.image_context_template
    (("instructions_placeholder", i) :: ("context_placeholder", c) :: rest)
  = inr (Rendered.image_context_prompt i c).
Proof. vm_compute. reflexivity. Qed.

Lemma format_default_topic_template (i t : string) (rest : Format.kwargs) :
  Format.format Text.default_topic_template
    (("instructions_placeholder", i) :: ("TOPIC", t) :: rest)
  = inr (Rendered.default_topic_prompt t i).
Proof.
  assert (P : Format.parse Text.default_topic_template
              = inr [Format.Lit Text.default_topic_head; Format.Field "TOPIC";
                     Format.Lit Text.default_topic_mid;
                     Format.Field "instructions_placeholder"])
    by (vm_compute; reflexivity).
  unfold Format.format. rewrite P. simpl. rewrite append_empty. reflexivity.
Qed.

Lemma format_parses (tpl : string) (kw : Format.kwargs) (text : string) :
  Format.format tpl kw = inr text ->
  exists segs, Format.parse tpl = inr segs /\ Format.render segs kw = inr text.
Proof.
  unfold Format.format. destruct (Format.parse tpl) as [e | segs].
  - discriminate.
  - intros H. exists segs. split; [reflexivity | exact H].
Qed.

(** ** One generation, step by step *)

Lemma trace_grows (t : list event) (ev : event) : (t ++ [ev])%list <> t.
Proof.
  intros H. apply (f_equal (@List.length event)) in H.
  rewrite List.length_app in H. simpl in H. lia.
Qed.

Lemma sent_trace (E : services) (s : state) (p : PromptTemplate) (text : string) :
  trace (final (sent E s p text)) = (trace s ++ [GenerateText text])%list.
Proof.
  unfold sent. destruct (llm E (trace s) text) as [e | answer]; [reflexivity |].
  destruct (parse E answer); reflexivity.
Qed.

Lemma sent_outcome (E : services) (s : state) (p : PromptTemplate) (text : string) :
  outcome (sent E s p text)
  = match llm E (trace s) text with
    | inl e => inl e
    | inr answer => parse E answer
    end.
Proof.
  unfold sent. destruct (llm E (trace s) text) as [e | answer]; [reflexivity |].
  destruct (parse E answer); reflexivity.
Qed.

Lemma sent_frame (E : services) (s : state) (p : PromptTemplate) (text : string) :
  same_but_prompt_and_response (self s) (self (final (sent E s p text))).
Proof.
  unfold sent. destruct (llm E (trace s) text) as [e | answer].
  - repeat split.
  - destruct (parse E answer); repeat split.
Qed.

Ltac run_method :=
  unfold generate_response, chain_invoke, PromptTemplate_new, try_except,
    bind, getattr, field, assign, lift, llm_invoke, ret, raise;
  simpl.

Lemma generate_in_context_mode (E : services) (s : state) (tpl : string)
    (vars : list string) (i : string) (c : optstr) (text : string) :
  prompt_template (self s) = Some tpl ->
  input_variables (self s) = Some vars ->
  contains "context_placeholder" vars = true ->
  instrucitons (self s) = Some i ->
  context (self s) = Some c ->
  Format.format tpl
    [("instructions_placeholder", i); ("context_placeholder", str c);
     ("format_instructions", format_instructions E)] = inr text ->
  generate_response E s = sent E s (prompt_object E tpl vars) text.
Proof.
  intros Ht Hv Hc Hi Hx Hf.
  destruct (format_parses _ _ _ Hf) as (segs & Hp & _).
  destruct s as [g t]. simpl in *. run_method.
  rewrite Ht; simpl. rewrite Hv; simpl. rewrite Hp; simpl.
  rewrite Hv; simpl. rewrite Hc; simpl. rewrite Hi; simpl. rewrite Hx; simpl.
  rewrite Hf; simpl. unfold sent; simpl.
  destruct (llm E t text) as [e | answer]; [reflexivity |].
  destruct (parse E answer); reflexivity.
Qed.

Lemma generate_in_topic_mode (E : services) (s : state) (tpl : string)
    (vars : list string) (i : string) (t : optstr) (text : string) :
  prompt_template (self s) = Some tpl ->
  input_variables (self s) = Some vars ->
  contains "context_placeholder" vars = false ->
  instrucitons (self s) = Some i ->
  topic (self s) = Some t ->
  Format.format tpl
    [("instructions_placeholder", i);
     ("TOPIC", match t with None => "Random" | Some v => v end);
     ("format_instructions", format_instructions E)] = inr text ->
  generate_response E s
  = sent E (with_default_topic s) (prompt_object E tpl vars) text.
Proof.
  intros Ht Hv Hc Hi Hx Hf.
  destruct (format_parses _ _ _ Hf) as (segs & Hp & _).
  destruct s as [g tr]. unfold with_default_topic. simpl in *. run_method.
  rewrite Ht; simpl. rewrite Hv; simpl. rewrite Hp; simpl.
  rewrite Hv; simpl. rewrite Hc; simpl. rewrite Hx; simpl.
  destruct t as [v |]; simpl.
  - rewrite Hi; simpl. rewrite Hx; simpl. rewrite Hf; simpl.
    unfold sent; simpl.
    destruct (llm E tr text) as [e | answer]; [reflexivity |].
    destruct (parse E answer); reflexivity.
  - rewrite Hi; simpl. rewrite Hf; simpl. unfold sent; simpl.
    destruct (llm E tr text) as [e | answer]; [reflexivity |].
    destruct (parse E answer); reflexivity.
Qed.

(** ** Mode selection, step by step *)

Lemma truthy_nonempty (c : string) : c <> "" -> truthy (Some c) = true.
Proof.
  intros H. unfold truthy. destruct (String.eqb_spec c ""); [contradiction | reflexivity].
Qed.

Ltac run_selection :=
  unfold set_context, set_image_context, open_read, generate_content,
    bind, getattr, field, assign, lift, ret, raise.

(** A non-empty context and no topic: the template of the context. *)
Lemma set_context_with_context (E : services) (s : state) (c : string) :
  c <> "" ->
  set_context E (Some c) None s
  = ({| self := set_input_variables context_variables
                  (set_prompt_template Text.context_template
                     (set_context_attr (Some c) (set_topic None (self s))));
        trace := trace s |}, inr tt).
Proof.
  intros H. run_selection. rewrite (truthy_nonempty c H). reflexivity.
Qed.

(** Neither a topic nor a context that counts as true: the inline template
    of the topic. *)
Lemma set_context_with_nothing (E : services) (s : state) (c : optstr) :
  truthy c = false ->
  set_context E c None s
  = ({| self := set_input_variables topic_variables
                  (set_prompt_template Text.default_topic_template
                     (set_context_attr c (set_topic None (self s))));
        trace := trace s |}, inr tt).
Proof.
  intros H. run_selection. rewrite H. reflexivity.
Qed.

(** A non-empty topic: the template read from the file, whatever the
    context. *)
Lemma set_context_with_topic (E : services) (s : state) (c : optstr)
    (t file : string) :
  t <> "" ->
  read_text E (trace s) topic_file_path = Some file ->
  set_context E c (Some t) s
  = ({| self := set_input_variables topic_variables
                  (set_prompt_template file
                     (set_context_attr c (set_topic (Some t) (self s))));
        trace := (trace s ++ [FileRead topic_file_path])%list |}, inr tt).
Proof.
  intros H F. run_selection. rewrite (truthy_nonempty t H).
  unfold topic_file_path in F. simpl. rewrite F. reflexivity.
Qed.

(** An image whose description arrives: the template of the image mode. *)
Lemma set_image_context_described (E : services) (s : state) (img : Image)
    (d : string) :
  image_to_text E (trace s) Text.image_description_prompt img = inr d ->
  set_image_context E img s
  = ({| self := set_input_variables context_variables
                  (set_prompt_template Text.image_context_template
                     (set_context_attr (Some d)
                        (set_image_prompt (Text.image_description_prompt, img)
                           (set_image img (self s)))));
        trace := (trace s ++ [DescribeImage Text.image_description_prompt img])%list |},
     inr tt).
Proof.
  intros H. run_selection. simpl. rewrite H. reflexivity.
Qed.

(** ** The instruction builder *)

Lemma append_assoc (a b c : string) : (a ++ b) ++ c = a ++ b ++ c.
Proof.
  induction a as [| x a IH]; simpl; [reflexivity | now rewrite IH].
Qed.

(** A phrase that straddles a field of a text occurs in the text. *)
Lemma occurs_around_field (before lead value trail after : string) :
  occurs_in (lead ++ value ++ trail)
    ((before ++ lead) ++ value ++ (trail ++ after)).
Proof.
  exists before, after. now rewrite !append_assoc.
Qed.

Lemma occurs_after (prefix needle hay : string) :
  occurs_in needle hay -> occurs_in needle (prefix ++ hay).
Proof.
  intros (before & after & ->). exists (prefix ++ before), after.
  now rewrite append_assoc.
Qed.

(** What the constructor leaves in the instance. *)
Lemma init_state (theme inspiration : string) (words : Z) :
  init theme inspiration words
  = {| self := set_instrucitons
                 (Text.instructions_text words (floordiv words 200) theme
                    inspiration)
                 (set_story_parts (floordiv words 200)
                    (blank theme inspiration words));
       trace := [] |}.
Proof. reflexivity. Qed.

Lemma instructions_text_states_parts (words parts : Z) (theme inspiration : string) :
  occurs_in (segmentation_sentence parts)
    (Text.instructions_text words parts theme inspiration).
Proof.
  unfold Text.instructions_text, segmentation_sentence.
  apply occurs_after. apply occurs_after.
  match goal with
  | |- occurs_in (?lead ++ ?value ++ ?trail) (?l ++ ?value ++ ?r ++ ?rest) =>
      change (occurs_in (lead ++ value ++ trail)
                ((substring 0 (String.length l - String.length lead) l ++ lead)
                 ++ value
                 ++ (trail ++ substring (String.length trail)
                                (String.length r - String.length trail) r
                           ++ rest)))
  end.
  apply occurs_around_field.
Qed.

(** C2.  For every non-negative word count the part count the instruction
    builder computes is the word count divided by 200, rounded down, hence 0
    below 200, and the instruction block is rendered with this very number:
    its sentence on segmentation reads "Divide the story into a N number of
    parts." with N the decimal numeral of the part count. *)
Theorem story_instructions_part_count (theme inspiration : string) (words : Z) :
  (0 <= words)%Z ->
  let g := self (init theme inspiration words) in
  story_parts g = Some (words / 200)%Z
  /\ ((words < 200)%Z -> story_parts g = Some 0%Z)
  /\ instrucitons g
     = Some (Text.instructions_text words (words / 200) theme inspiration)
  /\ occurs_in (segmentation_sentence (words / 200))
       (Text.instructions_text words (words / 200) theme inspiration).
Proof.
  intros Hpos g. subst g. rewrite init_state. simpl. unfold floordiv.
  repeat split.
  - intros Hlt. now rewrite (Z.div_small words 200) by lia.
  - apply instructions_text_states_parts.
Qed.

Lemma story_instructions_part_count_witness :
  (0 <= 150)%Z
  /\ story_parts (self (init "General" "General" 150)) = Some 0%Z
  /\ segmentation_sentence (150 / 200)
     = "Divide the story into a 0 number of parts.".
Proof.
  split; [lia |]. split; [| reflexivity].
  apply (story_instructions_part_count "General" "General" 150); lia.
Defined.

(** ** Generation before any mode is selected *)

(** C5, as amended.  On an instance on which no mode was selected the
    template attribute is absent: [generate_response] raises the
    [AttributeError] of that attribute, calls neither the language model nor
    the image model, and leaves the instance as it was. *)
Theorem generate_response_without_mode (E : services) (s : state) :
  prompt_template (self s) = None ->
  let r := generate_response E s in
  outcome r = inl (AttributeError "prompt_template")
  /\ trace (final r) = trace s
  /\ self (final r) = self s.
Proof.
  intros H r. subst r. destruct s as [g t]. simpl in H. run_method.
  rewrite H. simpl. repeat split.
Qed.

Lemma generate_response_without_mode_witness :
  prompt_template (self default_instance) = None
  /\ outcome (generate_response (Mock.answering "{}") default_instance)
     = inl (AttributeError "prompt_template")
  /\ trace (final (generate_response (Mock.answering "{}") default_instance))
     = [].
Proof.
  split; [reflexivity |].
  destruct (generate_response_without_mode (Mock.answering "{}")
              default_instance eq_refl) as (Ho & Ht & _).
  split; [exact Ho | exact Ht].
Defined.

(** C5, as stated, fails: the exception raised on the new instance is an
    [AttributeError], not a [PreconditionError]. *)
Lemma generate_response_without_mode_not_precondition_error :
  outcome (generate_response (Mock.answering "{}") default_instance)
  = inl (AttributeError "prompt_template")
  /\ exn_class (AttributeError "prompt_template") <> "PreconditionError".
Proof.
  split; [reflexivity | discriminate].
Qed.

(** ** Selecting a context *)

(** C4, as amended.  [set_context] raises nothing and calls nothing for a
    context alone, empty or not.  With the empty string it installs the
    inline template of the topic, with the placeholders of the topic and of
    the instructions, and leaves the topic [None]; with a non-empty string
    it installs the template of the context, with the placeholders of the
    instructions and of the context. *)
Theorem set_context_context_only (E : services) (s : state) (c : string) :
  c <> "" ->
  (let r := set_context E (Some "") None s in
   outcome r = inr tt
   /\ trace (final r) = trace s
   /\ prompt_template (self (final r)) = Some Text.default_topic_template
   /\ input_variables (self (final r)) = Some topic_variables
   /\ topic (self (final r)) = Some None
   /\ context (self (final r)) = Some (Some ""))
  /\ (let r := set_context E (Some c) None s in
      outcome r = inr tt
      /\ trace (final r) = trace s
      /\ prompt_template (self (final r)) = Some Text.context_template
      /\ input_variables (self (final r)) = Some context_variables
      /\ topic (self (final r)) = Some None
      /\ context (self (final r)) = Some (Some c)).
Proof.
  intros H. split.
  - rewrite (set_context_with_nothing E s (Some "") eq_refl). repeat split.
  - rewrite (set_context_with_context E s c H). repeat split.
Qed.

Lemma set_context_context_only_witness :
  "A misty forest" <> ""
  /\ prompt_template
       (self (final (set_context (Mock.answering "{}") (Some "") None
                       default_instance)))
     = Some Text.default_topic_template
  /\ prompt_template
       (self (final (set_context (Mock.answering "{}") (Some "A misty forest")
                       None default_instance)))
     = Some Text.context_template.
Proof.
  assert (H : "A misty forest" <> "") by discriminate.
  split; [exact H |].
  destruct (set_context_context_only (Mock.answering "{}") default_instance
              "A misty forest" H)
    as ((_ & _ & A & _) & (_ & _ & B & _)).
  split; [exact A | exact B].
Defined.

(** C4, as stated, fails: the empty context is accepted without any
    exception, and the generation that follows reaches the language model
    with the topic "Random". *)
Lemma set_context_empty_context_accepted :
  let E := Mock.answering "{}" in
  let r := set_context E (Some "") None default_instance in
  outcome r = inr tt
  /\ exists i,
       instrucitons (self (final r)) = Some i
       /\ trace (final (generate_response E (final r)))
          = [GenerateText (Rendered.default_topic_prompt "Random" i)].
Proof.
  split; [reflexivity |].
  eexists. split; [reflexivity |]. vm_compute. reflexivity.
Qed.

(** ** What a generation returns *)

(** A generation either stops before any call, with an exception, or sends
    one prompt and goes on as [sent] describes. *)
Lemma generate_response_cases (E : services) (s : state) :
  (exists e s', generate_response E s = (s', inl e) /\ trace s' = trace s)
  \/ (exists s' p text,
        generate_response E s = sent E s' p text /\ trace s' = trace s).
Proof.
  destruct s as [g t]. run_method.
  destruct (prompt_template g) as [tpl |] eqn:Ht; simpl;
    [| left; eexists; eexists; split; reflexivity].
  destruct (input_variables g) as [vars |] eqn:Hv; simpl;
    [| left; eexists; eexists; split; reflexivity].
  destruct (Format.parse tpl) as [e | segs] eqn:Hp; simpl;
    [left; eexists; eexists; split; reflexivity |].
  rewrite Hv; simpl.
  destruct (contains "context_placeholder" vars); simpl.
  - destruct (instrucitons g) as [i |]; simpl;
      [| left; eexists; eexists; split; reflexivity].
    destruct (context g) as [c |]; simpl;
      [| left; eexists; eexists; split; reflexivity].
    match goal with
    | |- context [Format.format ?a ?b] =>
        destruct (Format.format a b) as [e | text]; simpl
    end; [left; eexists; eexists; split; reflexivity |].
    right. exists {| self := g; trace := t |}, (prompt_object E tpl vars), text.
    unfold sent; simpl.
    destruct (llm E t text) as [e | answer]; [split; reflexivity |].
    destruct (parse E answer); split; reflexivity.
  - destruct (topic g) as [tpc |] eqn:Hx; simpl;
      [| left; eexists; eexists; split; reflexivity].
    destruct tpc as [v |]; simpl.
    + destruct (instrucitons g) as [i |]; simpl;
        [| left; eexists; eexists; split; reflexivity].
      rewrite Hx; simpl.
      match goal with
      | |- context [Format.format ?a ?b] =>
          destruct (Format.format a b) as [e | text]; simpl
      end; [left; eexists; eexists; split; reflexivity |].
      right.
      exists {| self := g; trace := t |}, (prompt_object E tpl vars), text.
      unfold sent; simpl.
      destruct (llm E t text) as [e | answer]; [split; reflexivity |].
      destruct (parse E answer); split; reflexivity.
    + destruct (instrucitons g) as [i |]; simpl;
        [| left; eexists; eexists; split; reflexivity].
      match goal with
      | |- context [Format.format ?a ?b] =>
          destruct (Format.format a b) as [e | text]; simpl
      end; [left; eexists; eexists; split; reflexivity |].
      right.
      exists {| self := set_topic (Some "Random") g; trace := t |},
        (prompt_object E tpl vars), text.
      unfold sent; simpl.
      destruct (llm E t text) as [e | answer]; [split; reflexivity |].
      destruct (parse E answer); split; reflexivity.
Qed.

(** C1, as amended.  Whenever [generate_response] sends a prompt and the
    language model answers, the method ends exactly as the JSON parser ends
    on that answer: it returns the value the parser returns, whatever its
    keys and parts, and it raises the exception the parser raises, as it
    is.  No structural check stands between the parser and the caller. *)
Theorem generate_response_returns_parser_result (E : services) (s : state)
    (text answer : string) :
  trace (final (generate_response E s)) = (trace s ++ [GenerateText text])%list ->
  llm E (trace s) text = inr answer ->
  outcome (generate_response E s) = parse E answer.
Proof.
  destruct (generate_response_cases E s)
    as [(e & s' & H & Ht) | (s' & p & text' & H & Ht)]; rewrite H.
  - simpl. rewrite Ht. intros A. symmetry in A.
    now apply trace_grows in A.
  - rewrite sent_trace, sent_outcome, Ht. intros A B.
    apply List.app_inv_head in A. injection A as ->. now rewrite B.
Qed.

Lemma generate_response_returns_parser_result_witness :
  trace (final (generate_response (Mock.answering "{}") misty_forest))
  = (trace misty_forest
     ++ [GenerateText
           (Rendered.context_prompt default_instructions "A misty forest")])%list
  /\ llm (Mock.answering "{}") (trace misty_forest)
       (Rendered.context_prompt default_instructions "A misty forest")
     = inr "{}"
  /\ outcome (generate_response (Mock.answering "{}") misty_forest)
     = inr (JObj []).
Proof.
  assert (A : trace (final (generate_response (Mock.answering "{}") misty_forest))
              = (trace misty_forest
                 ++ [GenerateText
                       (Rendered.context_prompt default_instructions
                          "A misty forest")])%list)
    by (vm_compute; reflexivity).
  split; [exact A |]. split; [reflexivity |].
  exact (generate_response_returns_parser_result (Mock.answering "{}")
           misty_forest _ "{}" A eq_refl).
Defined.

(** C1, as stated, fails: the default instance asks for one part, the
    language model answers with an empty JSON object, and the method
    returns it, although it has none of the keys of the contract. *)
Lemma generate_response_returns_unvalidated :
  story_parts (self misty_forest) = Some 1%Z
  /\ outcome (generate_response (Mock.answering "{}") misty_forest)
     = inr (JObj [])
  /\ Contract.story_result_ok 1 (JObj []) = false.
Proof.
  split; [reflexivity |]. split; [vm_compute; reflexivity | reflexivity].
Qed.

(** Text that is not JSON: the exception is the one of the parser, with the
    text of the answer in it. *)
Example generate_response_not_json :
  outcome (generate_response (Mock.answering "not json") misty_forest)
  = inl (OutputParserException "not json").
Proof. vm_compute. reflexivity. Qed.

(** ** The format instructions *)

(** Whatever the services, the prompt of the context mode is the template
    of the context with the instruction block and the context in it: the
    format instructions of the parser have no place in it. *)
Lemma context_prompt_sent (E : services) (s : state) (c i : string) :
  c <> "" ->
  instrucitons (self s) = Some i ->
  trace (final (generate_response E (final (set_context E (Some c) None s))))
  = (trace s ++ [GenerateText (Rendered.context_prompt i c)])%list.
Proof.
  intros Hc Hi. rewrite (set_context_with_context E s c Hc). simpl.
  rewrite (generate_in_context_mode E _ Text.context_template context_variables
             i (Some c) (Rendered.context_prompt i c));
    simpl; try reflexivity; try assumption.
  now rewrite sent_trace.
Qed.

(** The test of occurrence finds what the prompt does hold. *)
Example infix_finds_context :
  infix "A misty forest"
    (Rendered.context_prompt default_instructions "A misty forest") = true
  /\ infix (segmentation_sentence 1)
       (Rendered.context_prompt default_instructions "A misty forest") = true.
Proof. split; vm_compute; reflexivity. Qed.

(** C3 fails on the code.  The format instructions of the parser are handed
    to the template object as a partial variable, but the template of the
    context has no field for them: the prompt that reaches the language
    model is the template with the instruction block and the context filled
    in, and the format instructions occur nowhere in it. *)
Theorem format_instructions_not_in_prompt :
  trace (final (generate_response (Mock.answering "{}") misty_forest))
  = [GenerateText
       (Rendered.context_prompt default_instructions "A misty forest")]
  /\ prompt (self (final (generate_response (Mock.answering "{}") misty_forest)))
     = Some {| template := Text.context_template;
               declared_variables := context_variables;
               partial_variables := [("format_instructions", Mock.directive)] |}
  /\ infix Mock.directive
       (Rendered.context_prompt default_instructions "A misty forest")
     = false.
Proof.
  split; [vm_compute; reflexivity |]. split; vm_compute; reflexivity.
Qed.

(** The same holds of the two other inline templates, the one of the
    default topic and the one of the image mode. *)
Example format_instructions_not_in_other_prompts :
  let E := Mock.answering "{}" in
  let s1 := final (set_context E None None default_instance) in
  let s2 := final (set_image_context E two_bytes default_instance) in
  trace (final (generate_response E s1))
  = [GenerateText (Rendered.default_topic_prompt "Random" default_instructions)]
  /\ infix Mock.directive
       (Rendered.default_topic_prompt "Random" default_instructions)
     = false
  /\ trace (final (generate_response E s2))
     = [DescribeImage Text.image_description_prompt two_bytes;
        GenerateText
          (Rendered.image_context_prompt default_instructions Mock.description)]
  /\ infix Mock.directive
       (Rendered.image_context_prompt default_instructions Mock.description)
     = false.
Proof.
  repeat split; vm_compute; reflexivity.
Qed.

(** ** What the methods leave alone *)

Ltac split_cases :=
  repeat (simpl;
          match goal with
          | |- context [match ?x with _ => _ end] =>
              lazymatch x with
              | context [match _ with _ => _ end] => fail
              | _ => destruct x eqn:?
              end
          end).

Lemma generate_response_frame (E : services) (s : state) :
  generation_frame (self s) (self (final (generate_response E s))).
Proof.
  destruct s as [g t]. run_method. split_cases; simpl;
    unfold generation_frame; simpl; repeat split; auto.
Qed.

(** What a mode selection by [set_context] may change: the topic, the
    context, the template and the list of its variables. *)
Lemma set_context_frame (E : services) (s : state) (c t : optstr) :
  exists tp cx pt iv,
    self (final (set_context E c t s))
    = {| story_theme := story_theme (self s);
         story_inspiration := story_inspiration (self s);
         n_words := n_words (self s); story_parts := story_parts (self s);
         instrucitons := instrucitons (self s); topic := tp; context := cx;
         prompt_template := pt; input_variables := iv;
         image := image (self s); image_prompt := image_prompt (self s);
         prompt := prompt (self s); response := response (self s) |}.
Proof.
  destruct s as [g tr]. run_selection. split_cases; simpl;
    repeat eexists.
Qed.

(** ** Topic, then context *)

(** C6.  A context selected after a topic leaves the instance exactly as
    the same selection leaves an instance on which no topic was ever
    selected: the topic is [None] again, the template is the one of the
    context, and the prompt sent on generation is that template filled with
    the instruction block and the context, with nothing of the topic in
    it. *)
Theorem context_after_topic_discards_topic (E : services) (s : state)
    (tpc c i : string) :
  c <> "" ->
  instrucitons (self s) = Some i ->
  let s1 := final (set_context E None (Some tpc) s) in
  let s2 := final (set_context E (Some c) None s1) in
  self s2 = self (final (set_context E (Some c) None s))
  /\ topic (self s2) = Some None
  /\ prompt_template (self s2) = Some Text.context_template
  /\ input_variables (self s2) = Some context_variables
  /\ trace (final (generate_response E s2))
     = (trace s2 ++ [GenerateText (Rendered.context_prompt i c)])%list.
Proof.
  intros Hc Hi s1 s2.
  destruct (set_context_frame E s None (Some tpc)) as (tp & cx & pt & iv & F).
  fold s1 in F.
  assert (S2 : s2 = {| self := set_input_variables context_variables
                                 (set_prompt_template Text.context_template
                                    (set_context_attr (Some c)
                                       (set_topic None (self s1))));
                       trace := trace s1 |}).
  { unfold s2. now rewrite (set_context_with_context E s1 c Hc). }
  rewrite (set_context_with_context E s c Hc). rewrite S2. simpl.
  rewrite F. simpl. repeat split.
  rewrite (generate_in_context_mode E _ Text.context_template context_variables
             i (Some c) (Rendered.context_prompt i c));
    simpl; try reflexivity; try assumption.
  now rewrite sent_trace.
Qed.

Lemma context_after_topic_discards_topic_witness :
  "A misty forest" <> ""
  /\ instrucitons (self default_instance) = Some default_instructions
  /\ let E := Mock.answering "{}" in
     let s1 := final (set_context E None (Some "Dragons") default_instance) in
     let s2 := final (set_context E (Some "A misty forest") None s1) in
     topic (self s1) = Some (Some "Dragons")
     /\ topic (self s2) = Some None
     /\ trace (final (generate_response E s2))
        = [FileRead topic_file_path;
           GenerateText
             (Rendered.context_prompt default_instructions "A misty forest")]
     /\ infix "Dragons"
          (Rendered.context_prompt default_instructions "A misty forest")
        = false
     /\ infix "TOPIC"
          (Rendered.context_prompt default_instructions "A misty forest")
        = false.
Proof.
  assert (H : "A misty forest" <> "") by discriminate.
  split; [exact H |]. split; [reflexivity |].
  destruct (context_after_topic_discards_topic (Mock.answering "{}")
              default_instance "Dragons" "A misty forest" default_instructions
              H eq_refl) as (_ & T & _ & _ & G).
  split; [reflexivity |]. split; [exact T |]. split; [exact G |].
  split; vm_compute; reflexivity.
Defined.

(** ** The default topic *)

Lemma parse_default_topic_template :
  Format.parse Text.default_topic_template
  = inr [Format.Lit Text.default_topic_head; Format.Field "TOPIC";
         Format.Lit Text.default_topic_mid;
         Format.Field "instructions_placeholder"].
Proof. vm_compute. reflexivity. Qed.

(** C8.  A mode selection with no topic (and no context that counts) stores
    [None] as the topic; the word "Random" comes in only when
    [generate_response] runs, which sends the inline template of the topic
    filled with "Random" and the instruction block. *)
Theorem random_topic_substituted_at_generation (E : services) (s : state)
    (c : optstr) (i : string) :
  truthy c = false ->
  instrucitons (self s) = Some i ->
  let r := set_context E c None s in
  let r' := generate_response E (final r) in
  outcome r = inr tt
  /\ topic (self (final r)) = Some None
  /\ trace (final r')
     = (trace s ++ [GenerateText (Rendered.default_topic_prompt "Random" i)])%list
  /\ topic (self (final r')) = Some (Some "Random").
Proof.
  intros Hc Hi r r'. subst r r'.
  rewrite (set_context_with_nothing E s c Hc). simpl.
  rewrite (generate_in_topic_mode E _ Text.default_topic_template
             topic_variables i None
             (Rendered.default_topic_prompt "Random" i));
    simpl; try reflexivity; try assumption.
  - repeat split.
    + now rewrite sent_trace.
    + match goal with
      | |- topic (self (final (sent ?E ?s ?p ?text))) = _ =>
          destruct (sent_frame E s p text) as (_ & _ & _ & _ & _ & T & _)
      end.
      rewrite T. reflexivity.
  - apply format_default_topic_template.
Qed.

Lemma random_topic_substituted_at_generation_witness :
  truthy None = false
  /\ instrucitons (self default_instance) = Some default_instructions
  /\ let E := Mock.answering "{}" in
     let r := set_context E None None default_instance in
     topic (self (final r)) = Some None
     /\ trace (final (generate_response E (final r)))
        = [GenerateText
             (Rendered.default_topic_prompt "Random" default_instructions)]
     /\ topic (self (final (generate_response E (final r))))
        = Some (Some "Random").
Proof.
  split; [reflexivity |]. split; [reflexivity |].
  destruct (random_topic_substituted_at_generation (Mock.answering "{}")
              default_instance None default_instructions eq_refl eq_refl)
    as (_ & A & B & C).
  split; [exact A |]. split; [exact B | exact C].
Defined.

(** C10.  In the mode of the topic with the topic [None], a generation
    stores "Random" in the topic of the instance, whether or not the call
    of the language model succeeds, and the topic stays "Random" through
    the generations that follow; the theme, the inspiration, the word
    count, the instruction block and the installed template are the same
    after the generation as before. *)
Theorem generate_response_stores_random_topic (E : services) (s : state)
    (c : optstr) :
  truthy c = false ->
  let s1 := final (set_context E c None s) in
  let s2 := final (generate_response E s1) in
  let s3 := final (generate_response E s2) in
  topic (self s1) = Some None
  /\ topic (self s2) = Some (Some "Random")
  /\ topic (self s3) = Some (Some "Random")
  /\ story_theme (self s2) = story_theme (self s1)
  /\ story_inspiration (self s2) = story_inspiration (self s1)
  /\ n_words (self s2) = n_words (self s1)
  /\ instrucitons (self s2) = instrucitons (self s1)
  /\ prompt_template (self s2) = prompt_template (self s1).
Proof.
  intros Hc s1 s2 s3.
  assert (T1 : topic (self s1) = Some None).
  { unfold s1. now rewrite (set_context_with_nothing E s c Hc). }
  assert (T2 : topic (self s2) = Some (Some "Random")).
  { unfold s2, s1. rewrite (set_context_with_nothing E s c Hc).
    remember Text.default_topic_template as tpl eqn:Htpl.
    destruct s as [g t]. run_method.
    rewrite Htpl, parse_default_topic_template.
    split_cases; reflexivity. }
  destruct (generate_response_frame E s1)
    as (A & B & C & _ & D & _ & F & _).
  destruct (generate_response_frame E s2)
    as (_ & _ & _ & _ & _ & _ & _ & _ & _ & _ & [T3 | [T3 _]]).
  - fold s2 in A, B, C, D, F. fold s3 in T3. rewrite T2 in T3.
    repeat split; assumption.
  - rewrite T2 in T3. discriminate.
Qed.

Lemma generate_response_stores_random_topic_witness :
  truthy (Some "") = false
  /\ let E := Mock.answering "{}" in
     let s1 := final (set_context E (Some "") None default_instance) in
     topic (self s1) = Some None
     /\ topic (self (final (generate_response E s1))) = Some (Some "Random")
     /\ instrucitons (self (final (generate_response E s1)))
        = instrucitons (self s1).
Proof.
  split; [reflexivity |].
  destruct (generate_response_stores_random_topic (Mock.answering "{}")
              default_instance (Some "") eq_refl)
    as (A & B & _ & _ & _ & _ & C & _).
  split; [exact A |]. split; [exact B | exact C].
Defined.

(** ** A topic together with a context *)




(** ** Selecting an image *)

(** The template of the image mode is the template of the context: the
    same words, the same two fields, the same lines.  The source writes it
    out a second time, in a block that is indented four columns less, and
    the two literals differ by that indentation and by nothing else. *)
Lemma image_context_template_indented :
  indent_lines "    " true Text.image_context_template = Text.context_template.
Proof. vm_compute. reflexivity. Qed.

(** C7.  For an image the image model describes, [set_image_context] calls
    the image model once, with the analysis prompt and the image, and calls
    nothing else; it stores the description as the context, as it is, and
    installs the template of the context with its two placeholders, the
    one [set_context] installs, up to the indentation of the lines of the
    literal.  The prompt of the generation that follows is that template
    with the instruction block and the description in the places of the
    two placeholders, and it is the only text sent to the language
    model. *)
Theorem set_image_context_then_generate (E : services) (s : state)
    (img : Image) (d i : string) :
  image_to_text E (trace s) Text.image_description_prompt img = inr d ->
  instrucitons (self s) = Some i ->
  let r := set_image_context E img s in
  outcome r = inr tt
  /\ trace (final r)
     = (trace s ++ [DescribeImage Text.image_description_prompt img])%list
  /\ context (self (final r)) = Some (Some d)
  /\ prompt_template (self (final r)) = Some Text.image_context_template
  /\ input_variables (self (final r)) = Some context_variables
  /\ indent_lines "    " true Text.image_context_template
     = Text.context_template
  /\ trace (final (generate_response E (final r)))
     = (trace s
        ++ [DescribeImage Text.image_description_prompt img;
            GenerateText (Rendered.image_context_prompt i d)])%list.
Proof.
  intros Hd Hi r. subst r.
  rewrite (set_image_context_described E s img d Hd).
  remember Text.image_description_prompt as request eqn:Hr.
  simpl. split; [reflexivity |]. split; [reflexivity |].
  split; [reflexivity |]. split; [reflexivity |]. split; [reflexivity |].
  split; [apply image_context_template_indented |].
  rewrite (generate_in_context_mode E _ Text.image_context_template
             context_variables i (Some d)
             (Rendered.image_context_prompt i d));
    simpl; try reflexivity; try assumption.
  rewrite sent_trace. simpl. now rewrite <- List.app_assoc.
Qed.

Lemma set_image_context_then_generate_witness :
  image_to_text (Mock.answering "{}") (trace default_instance)
    Text.image_description_prompt two_bytes = inr Mock.description
  /\ instrucitons (self default_instance) = Some default_instructions
  /\ let E := Mock.answering "{}" in
     let r := set_image_context E two_bytes default_instance in
     trace (final r) = [DescribeImage Text.image_description_prompt two_bytes]
     /\ context (self (final r)) = Some (Some Mock.description)
     /\ trace (final (generate_response E (final r)))
        = [DescribeImage Text.image_description_prompt two_bytes;
           GenerateText
             (Rendered.image_context_prompt default_instructions
                Mock.description)].
Proof.
  split; [reflexivity |]. split; [reflexivity |].
  destruct (set_image_context_then_generate (Mock.answering "{}")
              default_instance two_bytes Mock.description default_instructions
              eq_refl eq_refl) as (_ & A & B & _ & _ & _ & C).
  split; [exact A |]. split; [exact B | exact C].
Defined.

(** * Further properties of the methods *)

(** ** Mode selection that fails *)

(** X1.  When a topic is given and the template file of the topic mode is
    missing, [set_context] raises [FileNotFoundError] after one attempt to
    read the file; the topic and the context are already stored by then,
    while the template and the list of its variables are those of the
    selection before. *)
Theorem set_context_missing_topic_file (E : services) (s : state) (c : optstr)
    (t : string) :
  t <> "" ->
  read_text E (trace s) topic_file_path = None ->
  let r := set_context E c (Some t) s in
  outcome r = inl (FileNotFoundError topic_file_path)
  /\ trace (final r) = (trace s ++ [FileRead topic_file_path])%list
  /\ topic (self (final r)) = Some (Some t)
  /\ context (self (final r)) = Some c
  /\ prompt_template (self (final r)) = prompt_template (self s)
  /\ input_variables (self (final r)) = input_variables (self s).
Proof.
  intros Ht Hf r. subst r. run_selection. rewrite (truthy_nonempty t Ht).
  unfold topic_file_path in Hf. simpl. rewrite Hf. simpl. repeat split.
Qed.

Lemma set_context_missing_topic_file_witness :
  "Dragons" <> ""
  /\ read_text (without_files (Mock.answering "{}")) (trace misty_forest)
       topic_file_path = None
  /\ let r := set_context (without_files (Mock.answering "{}")) None
                (Some "Dragons") misty_forest in
     outcome r = inl (FileNotFoundError topic_file_path)
     /\ topic (self (final r)) = Some (Some "Dragons")
     /\ context (self (final r)) = Some None
     /\ prompt_template (self (final r)) = Some Text.context_template.
Proof.
  assert (H : "Dragons" <> "") by discriminate.
  split; [exact H |]. split; [reflexivity |].
  destruct (set_context_missing_topic_file (without_files (Mock.answering "{}"))
              misty_forest None "Dragons" H eq_refl)
    as (A & _ & B & C & D & _).
  split; [exact A |]. split; [exact B |]. split; [exact C | exact D].
Defined.

(** X2.  A topic selection that fails for want of the template file, made
    after a context selection, leaves the template of the context in place
    with the context [None]: the generation that follows runs in the
    context mode and sends that template with the text "None" where the
    context goes. *)
Theorem failed_topic_selection_leaves_context_mode (E : services) (s : state)
    (c t i : string) :
  c <> "" ->
  t <> "" ->
  read_text E (trace s) topic_file_path = None ->
  instrucitons (self s) = Some i ->
  let s1 := final (set_context E (Some c) None s) in
  let r2 := set_context E None (Some t) s1 in
  outcome r2 = inl (FileNotFoundError topic_file_path)
  /\ prompt_template (self (final r2)) = Some Text.context_template
  /\ input_variables (self (final r2)) = Some context_variables
  /\ context (self (final r2)) = Some None
  /\ trace (final (generate_response E (final r2)))
     = (trace s
        ++ [FileRead topic_file_path;
            GenerateText (Rendered.context_prompt i "None")])%list.
Proof.
  intros Hc Ht Hf Hi s1 r2. subst r2 s1.
  rewrite (set_context_with_context E s c Hc). simpl.
  run_selection. rewrite (truthy_nonempty t Ht).
  unfold topic_file_path in Hf. simpl. rewrite Hf. simpl.
  split; [reflexivity |]. split; [reflexivity |]. split; [reflexivity |].
  split; [reflexivity |].
  rewrite (generate_in_context_mode E _ Text.context_template context_variables
             i None (Rendered.context_prompt i "None"));
    simpl; try reflexivity; try assumption.
  rewrite sent_trace. simpl. now rewrite <- List.app_assoc.
Qed.

Lemma failed_topic_selection_leaves_context_mode_witness :
  "A misty forest" <> ""
  /\ "Dragons" <> ""
  /\ read_text (without_files (Mock.answering "{}")) (trace default_instance)
       topic_file_path = None
  /\ instrucitons (self default_instance) = Some default_instructions
  /\ let E := without_files (Mock.answering "{}") in
     let s1 := final (set_context E (Some "A misty forest") None
                        default_instance) in
     let r2 := set_context E None (Some "Dragons") s1 in
     trace (final (generate_response E (final r2)))
     = [FileRead topic_file_path;
        GenerateText (Rendered.context_prompt default_instructions "None")].
Proof.
  assert (Hc : "A misty forest" <> "") by discriminate.
  assert (Ht : "Dragons" <> "") by discriminate.
  split; [exact Hc |]. split; [exact Ht |].
  split; [reflexivity |]. split; [reflexivity |].
  destruct (failed_topic_selection_leaves_context_mode
              (without_files (Mock.answering "{}")) default_instance
              "A misty forest" "Dragons" default_instructions Hc Ht eq_refl
              eq_refl) as (_ & _ & _ & _ & A).
  exact A.
Defined.

(** X3.  When the image model raises, [set_image_context] lets the exception
    through after that one call; the image and the request are stored, and
    the context, the template, the list of its variables and the topic are
    those of before. *)
Theorem set_image_context_model_failure (E : services) (s : state)
    (img : Image) (e : exn) :
  image_to_text E (trace s) Text.image_description_prompt img = inl e ->
  let r := set_image_context E img s in
  outcome r = inl e
  /\ trace (final r)
     = (trace s ++ [DescribeImage Text.image_description_prompt img])%list
  /\ image (self (final r)) = Some img
  /\ image_prompt (self (final r)) = Some (Text.image_description_prompt, img)
  /\ context (self (final r)) = context (self s)
  /\ prompt_template (self (final r)) = prompt_template (self s)
  /\ input_variables (self (final r)) = input_variables (self s)
  /\ topic (self (final r)) = topic (self s).
Proof.
  intros H r. subst r. run_selection. simpl. rewrite H. repeat split.
Qed.

Lemma set_image_context_model_failure_witness :
  image_to_text
    (with_failing_image_model service_unavailable (Mock.answering "{}"))
    (trace misty_forest) Text.image_description_prompt two_bytes
  = inl service_unavailable
  /\ let r := set_image_context
                (with_failing_image_model service_unavailable
                   (Mock.answering "{}")) two_bytes misty_forest in
     outcome r = inl service_unavailable
     /\ context (self (final r)) = Some (Some "A misty forest")
     /\ prompt_template (self (final r)) = Some Text.context_template.
Proof.
  split; [reflexivity |].
  destruct (set_image_context_model_failure
              (with_failing_image_model service_unavailable
                 (Mock.answering "{}")) misty_forest two_bytes
              service_unavailable eq_refl) as (A & _ & _ & _ & B & C & _).
  split; [exact A |]. split; [exact B | exact C].
Defined.

(** ** The empty topic *)

(** X4.  An empty topic string is not a topic for [set_context], which
    installs the inline template without reading the file, but it is not
    [None] either: it is stored, [generate_response] does not replace it by
    "Random", and the prompt names no topic at all. *)
Theorem empty_topic_is_kept (E : services) (s : state) (c : optstr)
    (i : string) :
  truthy c = false ->
  instrucitons (self s) = Some i ->
  let r := set_context E c (Some "") s in
  let r' := generate_response E (final r) in
  outcome r = inr tt
  /\ trace (final r) = trace s
  /\ prompt_template (self (final r)) = Some Text.default_topic_template
  /\ topic (self (final r)) = Some (Some "")
  /\ trace (final r')
     = (trace s ++ [GenerateText (Rendered.default_topic_prompt "" i)])%list
  /\ topic (self (final r')) = Some (Some "").
Proof.
  intros Hc Hi r r'. subst r' r. run_selection. rewrite Hc. simpl.
  split; [reflexivity |]. split; [reflexivity |]. split; [reflexivity |].
  split; [reflexivity |].
  rewrite (generate_in_topic_mode E _ Text.default_topic_template
             topic_variables i (Some "")
             (Rendered.default_topic_prompt "" i));
    simpl; try reflexivity; try assumption.
  - split; [now rewrite sent_trace |].
    match goal with
    | |- topic (self (final (sent ?E ?s ?p ?text))) = _ =>
        destruct (sent_frame E s p text) as (_ & _ & _ & _ & _ & T & _)
    end.
    rewrite T. reflexivity.
  - apply format_default_topic_template.
Qed.

Lemma empty_topic_is_kept_witness :
  truthy None = false
  /\ instrucitons (self default_instance) = Some default_instructions
  /\ let E := Mock.answering "{}" in
     let r := set_context E None (Some "") default_instance in
     topic (self (final r)) = Some (Some "")
     /\ trace (final (generate_response E (final r)))
        = [GenerateText (Rendered.default_topic_prompt "" default_instructions)]
     /\ topic (self (final (generate_response E (final r)))) = Some (Some "").
Proof.
  split; [reflexivity |]. split; [reflexivity |].
  destruct (empty_topic_is_kept (Mock.answering "{}") default_instance None
              default_instructions eq_refl eq_refl)
    as (_ & _ & _ & A & B & C).
  split; [exact A |]. split; [exact B | exact C].
Defined.

(** ** What a generation calls, returns and keeps *)

(** X5.  A generation calls the language model once at most, and calls
    nothing else: it reads no file and does not call the image model.  It
    either raises with the trace as it was, or has sent one prompt. *)
Theorem generate_response_calls_once_at_most (E : services) (s : state) :
  let r := generate_response E s in
  (trace (final r) = trace s /\ exists e, outcome r = inl e)
  \/ (exists text, trace (final r) = (trace s ++ [GenerateText text])%list).
Proof.
  intros r. subst r.
  destruct (generate_response_cases E s)
    as [(e & s' & H & Ht) | (s' & p & text & H & Ht)]; rewrite H.
  - left. split; [exact Ht | exists e; reflexivity].
  - right. exists text. now rewrite sent_trace, Ht.
Qed.

(** X6.  The value [generate_response] returns is the one it has stored in
    the attribute [response]; when it raises, the attribute is as it was
    before the call. *)
Theorem generate_response_returns_stored_response (E : services) (s : state) :
  let r := generate_response E s in
  match outcome r with
  | inr j => response (self (final r)) = Some j
  | inl _ => response (self (final r)) = response (self s)
  end.
Proof.
  intros r. subst r. destruct s as [g t]. run_method.
  split_cases; simpl; reflexivity.
Qed.

(** X7.  An exception of the language model comes out of
    [generate_response] as it is. *)
Theorem generate_response_model_failure (E : services) (s : state)
    (text : string) (e : exn) :
  trace (final (generate_response E s)) = (trace s ++ [GenerateText text])%list ->
  llm E (trace s) text = inl e ->
  outcome (generate_response E s) = inl e.
Proof.
  destruct (generate_response_cases E s)
    as [(e' & s' & H & Ht) | (s' & p & text' & H & Ht)]; rewrite H.
  - simpl. rewrite Ht. intros A. symmetry in A.
    now apply trace_grows in A.
  - rewrite sent_trace, sent_outcome, Ht. intros A B.
    apply List.app_inv_head in A. injection A as ->. now rewrite B.
Qed.

Lemma generate_response_model_failure_witness :
  let E := with_failing_language_model service_unavailable
             (Mock.answering "{}") in
  trace (final (generate_response E misty_forest))
  = (trace misty_forest
     ++ [GenerateText
           (Rendered.context_prompt default_instructions "A misty forest")])%list
  /\ llm E (trace misty_forest)
       (Rendered.context_prompt default_instructions "A misty forest")
     = inl service_unavailable
  /\ outcome (generate_response E misty_forest) = inl service_unavailable.
Proof.
  assert (A : trace (final (generate_response
                              (with_failing_language_model service_unavailable
                                 (Mock.answering "{}")) misty_forest))
              = (trace misty_forest
                 ++ [GenerateText
                       (Rendered.context_prompt default_instructions
                          "A misty forest")])%list)
    by (vm_compute; reflexivity).
  split; [exact A |]. split; [reflexivity |].
  exact (generate_response_model_failure
           (with_failing_language_model service_unavailable
              (Mock.answering "{}")) misty_forest _ service_unavailable A
           eq_refl).
Defined.

(** X8.  Whatever the state and whatever the outcome, a generation leaves
    the configuration, the instruction block, the context, the template,
    the list of its variables and the image attributes as they were; the
    topic changes in one case only, from [None] to "Random". *)
Theorem generate_response_keeps_mode_and_configuration (E : services)
    (s : state) :
  let g := self s in
  let g' := self (final (generate_response E s)) in
  story_theme g' = story_theme g
  /\ story_inspiration g' = story_inspiration g
  /\ n_words g' = n_words g
  /\ story_parts g' = story_parts g
  /\ instrucitons g' = instrucitons g
  /\ context g' = context g
  /\ prompt_template g' = prompt_template g
  /\ input_variables g' = input_variables g
  /\ image g' = image g
  /\ image_prompt g' = image_prompt g
  /\ (topic g' = topic g
      \/ (topic g = Some None /\ topic g' = Some (Some "Random"))).
Proof.
  exact (generate_response_frame E s).
Qed.

(** X9.  A generation reads the stored instruction block, not the
    configuration it was rendered from: two instances with the same topic,
    context, template, variables and instruction block send the same prompt
    and end the same way, whatever their theme, inspiration, word count and
    part count. *)
Theorem generate_response_reads_stored_instructions (E : services)
    (g g' : StoryGenerator) (t : list event) :
  topic g' = topic g ->
  context g' = context g ->
  prompt_template g' = prompt_template g ->
  input_variables g' = input_variables g ->
  instrucitons g' = instrucitons g ->
  let r := generate_response E {| self := g; trace := t |} in
  let r' := generate_response E {| self := g'; trace := t |} in
  trace (final r') = trace (final r) /\ outcome r' = outcome r.
Proof.
  intros H1 H2 H3 H4 H5 r r'. subst r r'.
  destruct g, g'. simpl in *. subst. run_method.
  split_cases; simpl; split; reflexivity.
Qed.

Lemma generate_response_reads_stored_instructions_witness :
  n_words misty_forest_reconfigured = 1000%Z
  /\ n_words (self misty_forest) = 200%Z
  /\ let E := Mock.answering "{}" in
     trace (final (generate_response E
                     {| self := misty_forest_reconfigured;
                        trace := trace misty_forest |}))
     = trace (final (generate_response E
                       {| self := self misty_forest;
                          trace := trace misty_forest |})).
Proof.
  split; [reflexivity |]. split; [reflexivity |].
  destruct (generate_response_reads_stored_instructions (Mock.answering "{}")
              (self misty_forest) misty_forest_reconfigured
              (trace misty_forest) eq_refl eq_refl eq_refl eq_refl eq_refl)
    as (A & _).
  exact A.
Defined.

(** X10.  Nothing is kept from one generation to the next: a second call in
    the context mode renders and sends the same prompt again, whatever the
    first call returned or raised. *)
Theorem generate_response_twice_sends_twice (E : services) (s : state)
    (c i : string) :
  c <> "" ->
  instrucitons (self s) = Some i ->
  let s1 := final (set_context E (Some c) None s) in
  let s2 := final (generate_response E s1) in
  trace (final (generate_response E s2))
  = (trace s
     ++ [GenerateText (Rendered.context_prompt i c);
         GenerateText (Rendered.context_prompt i c)])%list.
Proof.
  intros Hc Hi s1 s2.
  assert (S1 : s1 = {| self := set_input_variables context_variables
                                 (set_prompt_template Text.context_template
                                    (set_context_attr (Some c)
                                       (set_topic None (self s))));
                       trace := trace s |}).
  { unfold s1. now rewrite (set_context_with_context E s c Hc). }
  assert (T2 : trace s2
               = (trace s ++ [GenerateText (Rendered.context_prompt i c)])%list).
  { unfold s2. rewrite S1.
    rewrite (generate_in_context_mode E _ Text.context_template
               context_variables i (Some c) (Rendered.context_prompt i c));
      simpl; try reflexivity; try assumption.
    now rewrite sent_trace. }
  destruct (generate_response_frame E s1)
    as (_ & _ & _ & _ & F1 & F2 & F3 & F4 & _).
  fold s2 in F1, F2, F3, F4. rewrite S1 in F1, F2, F3, F4. simpl in *.
  rewrite (generate_in_context_mode E s2 Text.context_template
             context_variables i (Some c) (Rendered.context_prompt i c));
    try assumption; try reflexivity.
  - rewrite sent_trace, T2. now rewrite <- List.app_assoc.
  - now rewrite F1.
Qed.

Lemma generate_response_twice_sends_twice_witness :
  "A misty forest" <> ""
  /\ instrucitons (self default_instance) = Some default_instructions
  /\ let E := Mock.answering "{}" in
     let s1 := final (set_context E (Some "A misty forest") None
                        default_instance) in
     let s2 := final (generate_response E s1) in
     trace (final (generate_response E s2))
     = [GenerateText
          (Rendered.context_prompt default_instructions "A misty forest");
        GenerateText
          (Rendered.context_prompt default_instructions "A misty forest")].
Proof.
  assert (Hc : "A misty forest" <> "") by discriminate.
  split; [exact Hc |]. split; [reflexivity |].
  exact (generate_response_twice_sends_twice (Mock.answering "{}")
           default_instance "A misty forest" default_instructions Hc eq_refl).
Defined.

(** ** Selections one after the other *)

(** X11.  [set_context] keeps nothing of the selection before it: called
    after any other call of [set_context], it leaves the instance and ends
    exactly as it does when called at once, provided the template file,
    when a topic makes it read the file, is there and reads the same. *)
Theorem set_context_last_call_wins (E : services) (s : state)
    (c0 t0 c t : optstr) :
  (truthy t = true ->
   exists file,
     read_text E (trace (final (set_context E c0 t0 s))) topic_file_path
     = Some file
     /\ read_text E (trace s) topic_file_path = Some file) ->
  let r := set_context E c t (final (set_context E c0 t0 s)) in
  let r1 := set_context E c t s in
  self (final r) = self (final r1) /\ outcome r = outcome r1.
Proof.
  intros H r r1. subst r r1.
  destruct (set_context_frame E s c0 t0) as (tp & cx & pt & iv & F).
  remember (final (set_context E c0 t0 s)) as s1 eqn:Hs1.
  destruct s1 as [g1 t1]. simpl in F, H. subst g1. clear Hs1.
  run_selection. destruct (truthy t) eqn:Tt; simpl.
  - unfold topic_file_path in H. destruct (H eq_refl) as (file & R1 & R).
    rewrite R1, R. simpl. split; reflexivity.
  - destruct (truthy c); simpl; split; reflexivity.
Qed.

Lemma set_context_last_call_wins_witness :
  (truthy (Some "Dragons") = true ->
   exists file,
     read_text (Mock.answering "{}")
       (trace (final (set_context (Mock.answering "{}")
                        (Some "A misty forest") None default_instance)))
       topic_file_path = Some file
     /\ read_text (Mock.answering "{}") (trace default_instance)
          topic_file_path = Some file)
  /\ let E := Mock.answering "{}" in
     self (final (set_context E None (Some "Dragons")
                    (final (set_context E (Some "A misty forest") None
                              default_instance))))
     = self (final (set_context E None (Some "Dragons") default_instance)).
Proof.
  assert (H : truthy (Some "Dragons") = true ->
              exists file,
                read_text (Mock.answering "{}")
                  (trace (final (set_context (Mock.answering "{}")
                                   (Some "A misty forest") None
                                   default_instance)))
                  topic_file_path = Some file
                /\ read_text (Mock.answering "{}") (trace default_instance)
                     topic_file_path = Some file)
    by (intros _; exists Mock.topic_file; split; reflexivity).
  split; [exact H |].
  destruct (set_context_last_call_wins (Mock.answering "{}") default_instance
              (Some "A misty forest") None None (Some "Dragons") H) as (A & _).
  exact A.
Defined.

(** X12.  [set_image_context] does not touch the topic: an image selected
    after a topic leaves the topic stored, but the generation runs in the
    context mode, on the template of the image and the description, and
    the file template of the topic is used no more. *)
Theorem image_after_topic_keeps_topic_unused (E : services) (s : state)
    (t file : string) (img : Image) (d i : string) :
  t <> "" ->
  read_text E (trace s) topic_file_path = Some file ->
  image_to_text E (trace s ++ [FileRead topic_file_path])%list
    Text.image_description_prompt img = inr d ->
  instrucitons (self s) = Some i ->
  let s1 := final (set_context E None (Some t) s) in
  let s2 := final (set_image_context E img s1) in
  topic (self s2) = Some (Some t)
  /\ context (self s2) = Some (Some d)
  /\ prompt_template (self s2) = Some Text.image_context_template
  /\ trace (final (generate_response E s2))
     = (trace s
        ++ [FileRead topic_file_path;
            DescribeImage Text.image_description_prompt img;
            GenerateText (Rendered.image_context_prompt i d)])%list.
Proof.
  intros Ht Hf Hd Hi s1 s2. subst s2 s1.
  rewrite (set_context_with_topic E s None t file Ht Hf). simpl.
  match goal with
  | |- context [set_image_context E img ?st] =>
      rewrite (set_image_context_described E st img d Hd)
  end.
  remember Text.image_description_prompt as request eqn:Hr.
  simpl. split; [reflexivity |]. split; [reflexivity |].
  split; [reflexivity |].
  rewrite (generate_in_context_mode E _ Text.image_context_template
             context_variables i (Some d)
             (Rendered.image_context_prompt i d));
    simpl; try reflexivity; try assumption.
  rewrite sent_trace. simpl. rewrite <- !List.app_assoc. reflexivity.
Qed.

Lemma image_after_topic_keeps_topic_unused_witness :
  "Dragons" <> ""
  /\ read_text (Mock.answering "{}") (trace default_instance) topic_file_path
     = Some Mock.topic_file
  /\ image_to_text (Mock.answering "{}")
       (trace default_instance ++ [FileRead topic_file_path])%list
       Text.image_description_prompt two_bytes = inr Mock.description
  /\ instrucitons (self default_instance) = Some default_instructions
  /\ let E := Mock.answering "{}" in
     let s1 := final (set_context E None (Some "Dragons") default_instance) in
     let s2 := final (set_image_context E two_bytes s1) in
     topic (self s2) = Some (Some "Dragons")
     /\ trace (final (generate_response E s2))
        = [FileRead topic_file_path;
           DescribeImage Text.image_description_prompt two_bytes;
           GenerateText
             (Rendered.image_context_prompt default_instructions
                Mock.description)].
Proof.
  assert (Ht : "Dragons" <> "") by discriminate.
  split; [exact Ht |]. split; [reflexivity |]. split; [reflexivity |].
  split; [reflexivity |].
  destruct (image_after_topic_keeps_topic_unused (Mock.answering "{}")
              default_instance "Dragons" Mock.topic_file two_bytes
              Mock.description default_instructions Ht eq_refl eq_refl
              eq_refl) as (A & _ & _ & B).
  split; [exact A | exact B].
Defined.

(** ** The instruction builder, again *)

(** X13.  The part count brackets the word count for every integer: 200
    times the part count is at most the word count and more than the word
    count less 200.  The division rounds down, so a negative word count
    gives a negative part count, and the instruction block is rendered with
    it. *)
Theorem story_parts_brackets_word_count (theme inspiration : string) (words : Z) :
  exists parts : Z,
    story_parts (self (init theme inspiration words)) = Some parts
    /\ (200 * parts <= words < 200 * parts + 200)%Z
    /\ ((words < 0)%Z -> (parts < 0)%Z)
    /\ instrucitons (self (init theme inspiration words))
       = Some (Text.instructions_text words parts theme inspiration)
    /\ occurs_in (segmentation_sentence parts)
         (Text.instructions_text words parts theme inspiration).
Proof.
  exists (words / 200)%Z. rewrite init_state. unfold floordiv.
  pose proof (Z.div_mod words 200 ltac:(lia)) as D.
  pose proof (Z.mod_pos_bound words 200 ltac:(lia)) as B.
  split; [reflexivity |]. split; [lia |]. split; [lia |].
  split; [reflexivity |]. apply instructions_text_states_parts.
Qed.

(** X14.  [story_instructions] can be called again at any time: it raises
    nothing and calls nothing, it renders the part count and the
    instruction block from the configuration as it is now, whatever was
    stored, it leaves the mode and the response alone, and a second call
    right after changes nothing more. *)
Theorem story_instructions_refreshes (s : state) :
  let r := story_instructions s in
  let g := self s in
  let g' := self (final r) in
  outcome r = inr tt
  /\ trace (final r) = trace s
  /\ story_parts g' = Some (floordiv (n_words g) 200)
  /\ instrucitons g'
     = Some (Text.instructions_text (n_words g) (floordiv (n_words g) 200)
               (story_theme g) (story_inspiration g))
  /\ story_theme g' = story_theme g
  /\ story_inspiration g' = story_inspiration g
  /\ n_words g' = n_words g
  /\ topic g' = topic g
  /\ context g' = context g
  /\ prompt_template g' = prompt_template g
  /\ input_variables g' = input_variables g
  /\ response g' = response g
  /\ story_instructions (final r) = r.
Proof.
  destruct s as [g t]. destruct g. simpl. repeat split.
Qed.

(** ** Templates and the format instructions *)

Lemma occurs_at_start (needle rest : string) : occurs_in needle (needle ++ rest).
Proof. exists "", rest. reflexivity. Qed.

(** A field of a template shows its value in the rendered text. *)
Lemma render_field_occurs (segs : list Format.segment) (kw : Format.kwargs)
    (x v : string) :
  In (Format.Field x) segs ->
  Format.lookup x kw = Some v ->
  forall text, Format.render segs kw = inr text -> occurs_in v text.
Proof.
  intros Hin Hx. induction segs as [| seg segs IH]; [contradiction |].
  intros text. simpl. destruct seg as [lit | name].
  - destruct Hin as [Heq | Hin]; [discriminate |].
    destruct (Format.render segs kw) as [e | out]; [discriminate |].
    intros H. injection H as <-. apply occurs_after. now apply IH.
  - destruct (Format.lookup name kw) as [w |] eqn:Hn; [| discriminate].
    destruct (Format.render segs kw) as [e | out]; [discriminate |].
    intros H. injection H as <-.
    destruct Hin as [Heq | Hin].
    + injection Heq as ->. rewrite Hx in Hn. injection Hn as <-.
      apply occurs_at_start.
    + apply occurs_after. now apply IH.
Qed.

(** A name a template has no field for can be bound to anything. *)
Lemma lookup_last_other (name x v v' : string) (kw : Format.kwargs) :
  name <> x ->
  Format.lookup name (kw ++ [(x, v)])%list
  = Format.lookup name (kw ++ [(x, v')])%list.
Proof.
  intros Hne. induction kw as [| [k w] kw IH]; simpl.
  - destruct (String.eqb_spec x name); [congruence | reflexivity].
  - destruct (k =? name); [reflexivity | exact IH].
Qed.

Lemma render_without_field (segs : list Format.segment) (kw : Format.kwargs)
    (x v v' : string) :
  ~ In (Format.Field x) segs ->
  Format.render segs (kw ++ [(x, v)])%list
  = Format.render segs (kw ++ [(x, v')])%list.
Proof.
  induction segs as [| seg segs IH]; intros Hn; [reflexivity |].
  assert (Hn' : ~ In (Format.Field x) segs) by (intros H; apply Hn; now right).
  simpl. destruct seg as [lit | name].
  - now rewrite (IH Hn').
  - assert (Hne : name <> x) by (intros ->; apply Hn; now left).
    rewrite (lookup_last_other name x v v' kw Hne). now rewrite (IH Hn').
Qed.

Lemma format_without_field (tpl : string) (segs : list Format.segment)
    (kw : Format.kwargs) (x v v' : string) :
  Format.parse tpl = inr segs ->
  ~ In (Format.Field x) segs ->
  Format.format tpl (kw ++ [(x, v)])%list
  = Format.format tpl (kw ++ [(x, v')])%list.
Proof.
  intros Hp Hn. unfold Format.format. rewrite Hp.
  now apply render_without_field.
Qed.

(** A field with no value makes the rendering fail. *)
Lemma render_missing_field (segs : list Format.segment) (kw : Format.kwargs)
    (name : string) :
  In (Format.Field name) segs ->
  Format.lookup name kw = None ->
  exists e, Format.render segs kw = inl e.
Proof.
  intros Hin Hx. induction segs as [| seg segs IH]; [contradiction |].
  simpl. destruct seg as [lit | other].
  - destruct Hin as [Heq | Hin]; [discriminate |].
    destruct (IH Hin) as (e & He). exists e. now rewrite He.
  - destruct Hin as [Heq | Hin].
    + injection Heq as ->. rewrite Hx. now exists (KeyError name).
    + destruct (Format.lookup other kw) as [w |];
        [| now exists (KeyError other)].
      destruct (IH Hin) as (e & He). exists e. now rewrite He.
Qed.

(** X15.  A template file with a field that [generate_response] gives no
    value to stops the generation before anything is sent: when the fields
    of the file are plain names and one of them is neither the topic, nor
    the instructions, nor the format instructions, [generate_response]
    raises, the language model is not called, and the response is as it
    was. *)
Theorem missing_template_variable_stops_generation (E : services) (s : state)
    (c : optstr) (t file : string) (segs : list Format.segment)
    (name : string) :
  t <> "" ->
  read_text E (trace s) topic_file_path = Some file ->
  Format.parse file = inr segs ->
  In (Format.Field name) segs ->
  name <> "instructions_placeholder" ->
  name <> "TOPIC" ->
  name <> "format_instructions" ->
  let s1 := final (set_context E c (Some t) s) in
  let r := generate_response E s1 in
  (exists e, outcome r = inl e)
  /\ trace (final r) = trace s1
  /\ trace s1 = (trace s ++ [FileRead topic_file_path])%list
  /\ response (self (final r)) = response (self s).
Proof.
  intros Ht Hf Hp Hin N1 N2 N3 s1 r. subst r s1.
  rewrite (set_context_with_topic E s c t file Ht Hf). simpl.
  run_method. rewrite Hp. simpl.
  destruct (instrucitons (self s)) as [i |]; simpl.
  - assert (Hx : Format.lookup name
                   [("instructions_placeholder", i); ("TOPIC", t);
                    ("format_instructions", format_instructions E)] = None).
    { cbn [Format.lookup].
      rewrite (proj2 (String.eqb_neq "instructions_placeholder" name))
        by congruence.
      rewrite (proj2 (String.eqb_neq "TOPIC" name)) by congruence.
      rewrite (proj2 (String.eqb_neq "format_instructions" name))
        by congruence.
      reflexivity. }
    destruct (render_missing_field segs _ name Hin Hx) as (e & He).
    unfold Format.format. rewrite Hp, He. simpl.
    split; [exists e; reflexivity | repeat split].
  - split; [eexists; reflexivity | repeat split].
Qed.

Lemma missing_template_variable_stops_generation_witness :
  let E := with_file topic_file_with_mood (Mock.answering "{}") in
  let segs := [Format.Lit "Write a "; Format.Field "mood";
               Format.Lit " story about "; Format.Field "TOPIC";
               Format.Lit ("." ++ nl);
               Format.Field "instructions_placeholder"] in
  let s1 := final (set_context E None (Some "Dragons") default_instance) in
  "Dragons" <> ""
  /\ read_text E (trace default_instance) topic_file_path
     = Some topic_file_with_mood
  /\ Format.parse topic_file_with_mood = inr segs
  /\ In (Format.Field "mood") segs
  /\ "mood" <> "instructions_placeholder"
  /\ "mood" <> "TOPIC"
  /\ "mood" <> "format_instructions"
  /\ (exists e, outcome (generate_response E s1) = inl e)
  /\ trace (final (generate_response E s1)) = [FileRead topic_file_path].
Proof.
  intros E segs s1.
  assert (Ht : "Dragons" <> "") by discriminate.
  assert (Hp : Format.parse topic_file_with_mood = inr segs)
    by (vm_compute; reflexivity).
  assert (Hin : In (Format.Field "mood") segs) by (simpl; tauto).
  assert (N1 : "mood" <> "instructions_placeholder") by discriminate.
  assert (N2 : "mood" <> "TOPIC") by discriminate.
  assert (N3 : "mood" <> "format_instructions") by discriminate.
  split; [exact Ht |]. split; [reflexivity |]. split; [exact Hp |].
  split; [exact Hin |]. split; [exact N1 |]. split; [exact N2 |].
  split; [exact N3 |].
  destruct (missing_template_variable_stops_generation E default_instance
              None "Dragons" topic_file_with_mood segs "mood" Ht eq_refl Hp
              Hin N1 N2 N3) as (A & B & C & _).
  split; [exact A |]. unfold s1. rewrite B. exact C.
Defined.

(** X16.  The format instructions do reach the prompt in the mode of the
    topic when the template file has a field for them: the prompt sent is
    the file rendered with the topic, the instruction block and the format
    instructions, and the format instructions occur in it. *)
Theorem file_template_receives_format_instructions (E : services) (s : state)
    (c : optstr) (t file i : string) (segs : list Format.segment)
    (text : string) :
  t <> "" ->
  read_text E (trace s) topic_file_path = Some file ->
  instrucitons (self s) = Some i ->
  Format.parse file = inr segs ->
  In (Format.Field "format_instructions") segs ->
  Format.format file
    [("instructions_placeholder", i); ("TOPIC", t);
     ("format_instructions", format_instructions E)] = inr text ->
  trace (final (generate_response E (final (set_context E c (Some t) s))))
  = (trace s ++ [FileRead topic_file_path; GenerateText text])%list
  /\ occurs_in (format_instructions E) text.
Proof.
  intros Ht Hf Hi Hp Hin Hr.
  rewrite (set_context_with_topic E s c t file Ht Hf). simpl. split.
  - rewrite (generate_in_topic_mode E _ file topic_variables i (Some t) text);
      simpl; try reflexivity; try assumption.
    rewrite sent_trace. simpl. now rewrite <- List.app_assoc.
  - unfold Format.format in Hr. rewrite Hp in Hr.
    apply (render_field_occurs segs
             [("instructions_placeholder", i); ("TOPIC", t);
              ("format_instructions", format_instructions E)]
             "format_instructions" (format_instructions E) Hin eq_refl text
             Hr).
Qed.

Lemma file_template_receives_format_instructions_witness :
  let E := with_file topic_file_with_directive (Mock.answering "{}") in
  let segs := [Format.Lit "Write a story about "; Format.Field "TOPIC";
               Format.Lit ("." ++ nl);
               Format.Field "instructions_placeholder"; Format.Lit nl;
               Format.Field "format_instructions"] in
  let text := "Write a story about Dragons." ++ nl ++ default_instructions
                ++ nl ++ Mock.directive in
  "Dragons" <> ""
  /\ read_text E (trace default_instance) topic_file_path
     = Some topic_file_with_directive
  /\ instrucitons (self default_instance) = Some default_instructions
  /\ Format.parse topic_file_with_directive = inr segs
  /\ In (Format.Field "format_instructions") segs
  /\ Format.format topic_file_with_directive
       [("instructions_placeholder", default_instructions);
        ("TOPIC", "Dragons");
        ("format_instructions", format_instructions E)] = inr text
  /\ trace (final (generate_response E
                     (final (set_context E None (Some "Dragons")
                               default_instance))))
     = [FileRead topic_file_path; GenerateText text]
  /\ infix Mock.directive text = true.
Proof.
  intros E segs text.
  assert (Ht : "Dragons" <> "") by discriminate.
  assert (Hp : Format.parse topic_file_with_directive = inr segs)
    by (vm_compute; reflexivity).
  assert (Hin : In (Format.Field "format_instructions") segs)
    by (simpl; tauto).
  assert (Hr : Format.format topic_file_with_directive
                 [("instructions_placeholder", default_instructions);
                  ("TOPIC", "Dragons");
                  ("format_instructions", format_instructions E)] = inr text)
    by (vm_compute; reflexivity).
  split; [exact Ht |]. split; [reflexivity |]. split; [reflexivity |].
  split; [exact Hp |]. split; [exact Hin |]. split; [exact Hr |].
  split; [| vm_compute; reflexivity].
  exact (proj1 (file_template_receives_format_instructions E default_instance
                  None "Dragons" topic_file_with_directive
                  default_instructions segs text Ht eq_refl eq_refl Hp Hin Hr)).
Defined.

(** X17.  With a template that has no field for them, the format
    instructions have no part in a generation: whatever text the parser
    gives as format instructions, the same prompt is sent and the
    generation ends the same way. *)
Theorem format_instructions_unused_without_field (E : services) (s : state)
    (tpl : string) (segs : list Format.segment) (other : string) :
  prompt_template (self s) = Some tpl ->
  Format.parse tpl = inr segs ->
  ~ In (Format.Field "format_instructions") segs ->
  let r := generate_response E s in
  let r' := generate_response (with_format_instructions other E) s in
  trace (final r') = trace (final r) /\ outcome r' = outcome r.
Proof.
  intros Ht Hp Hn r r'. subst r r'. destruct s as [g t]. simpl in Ht.
  run_method. rewrite Ht. simpl.
  destruct (input_variables g) as [vars |] eqn:Hv; simpl;
    [| split; reflexivity].
  rewrite Hp. simpl. rewrite Hv. simpl.
  destruct (contains "context_placeholder" vars); simpl.
  - destruct (instrucitons g) as [i |]; simpl; [| split; reflexivity].
    destruct (context g) as [c |]; simpl; [| split; reflexivity].
    pose proof (format_without_field tpl segs
               [("instructions_placeholder", i);
                ("context_placeholder", str c)]
               "format_instructions" other (format_instructions E) Hp Hn) as Fo.
    simpl in Fo. rewrite Fo.
    split_cases; split; reflexivity.
  - destruct (topic g) as [tpc |] eqn:Hx; simpl; [| split; reflexivity].
    destruct tpc as [v |]; simpl.
    + destruct (instrucitons g) as [i |]; simpl; [| split; reflexivity].
      rewrite Hx. simpl.
      pose proof (format_without_field tpl segs
                 [("instructions_placeholder", i); ("TOPIC", v)]
                 "format_instructions" other (format_instructions E) Hp Hn) as Fo.
    simpl in Fo. rewrite Fo.
      split_cases; split; reflexivity.
    + destruct (instrucitons g) as [i |]; simpl; [| split; reflexivity].
      pose proof (format_without_field tpl segs
                 [("instructions_placeholder", i); ("TOPIC", "Random")]
                 "format_instructions" other (format_instructions E) Hp Hn) as Fo.
    simpl in Fo. rewrite Fo.
      split_cases; split; reflexivity.
Qed.

Lemma format_instructions_unused_without_field_witness :
  let segs := [Format.Lit Text.context_head;
               Format.Field "instructions_placeholder";
               Format.Lit Text.context_mid;
               Format.Field "context_placeholder";
               Format.Lit Text.context_tail] in
  prompt_template (self misty_forest) = Some Text.context_template
  /\ Format.parse Text.context_template = inr segs
  /\ ~ In (Format.Field "format_instructions") segs
  /\ trace (final (generate_response
                     (with_format_instructions "Answer in JSON."
                        (Mock.answering "{}")) misty_forest))
     = trace (final (generate_response (Mock.answering "{}") misty_forest)).
Proof.
  intros segs.
  assert (Hp : Format.parse Text.context_template = inr segs)
    by (vm_compute; reflexivity).
  assert (Hn : ~ In (Format.Field "format_instructions") segs).
  { simpl. intros [H | [H | [H | [H | [H | []]]]]]; discriminate. }
  split; [reflexivity |]. split; [exact Hp |]. split; [exact Hn |].
  exact (proj1 (format_instructions_unused_without_field (Mock.answering "{}")
                  misty_forest Text.context_template segs "Answer in JSON."
                  eq_refl Hp Hn)).
Defined.

(** ** From the constructor to the prompt *)

(** X18.  From the arguments of the constructor to the prompt, in the
    context mode: the text sent to the language model is the template of
    the context around the instruction block rendered from the arguments
    and around the context, both as they are; braces in the theme, the
    inspiration or the context are not read as fields. *)
Theorem context_prompt_from_constructor (E : services)
    (theme inspiration : string) (words : Z) (c : string) :
  c <> "" ->
  let s := init theme inspiration words in
  trace (final (generate_response E (final (set_context E (Some c) None s))))
  = [GenerateText
       (Text.context_head
        ++ Text.instructions_text words (floordiv words 200) theme inspiration
        ++ Text.context_mid ++ c ++ Text.context_tail)].
Proof.
  intros Hc s. subst s. rewrite init_state.
  rewrite (set_context_with_context E _ c Hc).
  remember (Text.instructions_text words (floordiv words 200) theme
              inspiration) as i eqn:Hi.
  rewrite (generate_in_context_mode E _ Text.context_template context_variables
             i (Some c) (Rendered.context_prompt i c));
    simpl; try reflexivity.
  now rewrite sent_trace.
Qed.

Lemma context_prompt_from_constructor_witness :
  "{context_placeholder}" <> ""
  /\ let E := Mock.answering "{}" in
     let s := init "{TOPIC}" "General" 200 in
     trace (final (generate_response E
                     (final (set_context E (Some "{context_placeholder}")
                               None s))))
     = [GenerateText
          (Text.context_head
           ++ Text.instructions_text 200 1 "{TOPIC}" "General"
           ++ Text.context_mid ++ "{context_placeholder}"
           ++ Text.context_tail)].
Proof.
  assert (Hc : "{context_placeholder}" <> "") by discriminate.
  split; [exact Hc |].
  exact (context_prompt_from_constructor (Mock.answering "{}") "{TOPIC}"
           "General" 200 "{context_placeholder}" Hc).
Defined.
